(** * NLP_Project: the Tk handlers of [ModernNLPApp]

    A shallow embedding of the two application files,
    [src/modern_nlp_app.py] and [src/nlp_project.py]: the Python
    built-ins the handlers use ([str.strip], [str.lower], [in],
    [str.join], [min], float formatting), the part of Tk they touch
    (Text widgets with their NORMAL/DISABLED state, message boxes), the
    application object, and the handlers of each file in a module of its
    own.

    Modelling conventions.
    - A Python [str] is a [string] whose characters are the code points
      0 to 255 (ASCII and Latin-1), on which [str.lower] and
      [str.isspace] act character by character as written out below.
      Code points above 255 follow further Unicode tables, which are
      not reproduced here.
    - A Python [float] is a primitive binary64 [float]; a Python [int]
      is a [Z].
    - A handler is a computation in a state monad over the application
      object and the trace of externally visible events (message boxes
      and pipeline calls), with Python exceptions as a second outcome. *)

From Stdlib Require Import ZArith String List Ascii Bool Lia.
From Stdlib Require Import DecimalString PrimFloat FloatOps SpecFloat Uint63.
Import ListNotations.

Local Open Scope string_scope.
Local Open Scope Z_scope.

(** ** Python built-ins *)

Module Py.

(** [c.isspace()]: TAB, LF, VT, FF, CR, the four separators FS, GS,
    RS, US, the space, NEL and the no-break space. *)
Definition isspace (c : ascii) : bool :=
  let n := N_of_ascii c in
  ((9 <=? n) && (n <=? 13) || (28 <=? n) && (n <=? 32) ||
   (n =? 133) || (n =? 160))%N.

(** [s.lstrip()] *)
Fixpoint lstrip (s : string) : string :=
  match s with
  | EmptyString => EmptyString
  | String c r => if isspace c then lstrip r else s
  end.

(** [s.rstrip()] *)
Fixpoint rstrip (s : string) : string :=
  match s with
  | EmptyString => EmptyString
  | String c r =>
      match rstrip r with
      | EmptyString => if isspace c then EmptyString else String c EmptyString
      | r' => String c r'
      end
  end.

(** [s.strip()] *)
Definition strip (s : string) : string := rstrip (lstrip s).

(** Truth value of a string: [not s] is true on the empty string only. *)
Definition not_str (s : string) : bool :=
  match s with EmptyString => true | String _ _ => false end.

(** The characters [c.lower()] changes: A-Z and the Latin-1 capitals
    (192-222 but the multiplication sign 215). *)
Definition isupper (c : ascii) : bool :=
  let n := N_of_ascii c in
  ((65 <=? n) && (n <=? 90) ||
   (192 <=? n) && (n <=? 222) && negb (n =? 215))%N.

Definition lower_char (c : ascii) : ascii :=
  if isupper c then ascii_of_N (N_of_ascii c + 32) else c.

(** [s.lower()] *)
Fixpoint lower (s : string) : string :=
  match s with
  | EmptyString => EmptyString
  | String c r => String (lower_char c) (lower r)
  end.

(** [s.startswith(p)] *)
Fixpoint startswith (p s : string) : bool :=
  match p, s with
  | EmptyString, _ => true
  | String _ _, EmptyString => false
  | String a p', String b s' => Ascii.eqb a b && startswith p' s'
  end.

(** [sub in s]: [sub] starts at some position of [s]. *)
Fixpoint contains (sub s : string) : bool :=
  startswith sub s ||
  match s with
  | EmptyString => false
  | String _ r => contains sub r
  end.

(** [sep.join(l)] *)
Fixpoint join (sep : string) (l : list string) : string :=
  match l with
  | [] => ""
  | [x] => x
  | x :: r => x ++ sep ++ join sep r
  end.

(** [str(n)] and [f"{n}"] for an int. *)
Definition str_int (n : Z) : string := NilZero.string_of_int (Z.to_int n).

(** [s * n] *)
Fixpoint repeat_str (s : string) (n : nat) : string :=
  match n with
  | O => ""
  | S k => s ++ repeat_str s k
  end.

(** [sum(l)] over ints. *)
Definition sum (l : list Z) : Z := fold_left Z.add l 0.

(** [enumerate(l, start)] *)
Fixpoint enumerate {A} (l : list A) (start : Z) : list (Z * A) :=
  match l with
  | [] => []
  | x :: r => (start, x) :: enumerate r (start + 1)
  end.

(** [float(n)], for an int from 0 to 2^53 (exactly representable). *)
Definition float_of_int (n : Z) : float := PrimFloat.of_uint63 (Uint63.of_Z n).

(** [a / b] on two ints is true division, a float. *)
Definition truediv (a b : Z) : float :=
  PrimFloat.div (float_of_int a) (float_of_int b).

(** [min(a, b)]: the first argument unless the second is smaller. *)
Definition min (a b : float) : float :=
  if PrimFloat.ltb b a then b else a.

(** Rounding of the non-negative rational [num / den] to the nearest
    integer, ties to the even one. *)
Definition round_half_even (num den : Z) : Z :=
  let q := num / den in
  let r := num mod den in
  if 2 * r <? den then q
  else if den <? 2 * r then q + 1
  else if Z.even q then q else q + 1.

Definition zfill (width : nat) (s : string) : string :=
  repeat_str "0" (width - String.length s) ++ s.

(** The digits of [n / 10^prec] with [prec] digits after the point. *)
Definition fixed_digits (prec : nat) (n : Z) : string :=
  let p := 10 ^ Z.of_nat prec in
  match prec with
  | O => str_int n
  | _ => str_int (n / p) ++ "." ++ zfill prec (str_int (n mod p))
  end.

(** [f"{x:.{prec}f}"]: the exact binary value of [x], correctly
    rounded to [prec] decimals. *)
Definition format_f (prec : nat) (x : float) : string :=
  match Prim2SF x with
  | S754_nan => "nan"
  | S754_infinity s => if s then "-inf" else "inf"
  | S754_zero s => (if s then "-" else "") ++ fixed_digits prec 0
  | S754_finite s m e =>
      let scaled := Z.pos m * 10 ^ Z.of_nat prec in
      let n := if 0 <=? e then scaled * 2 ^ e
               else round_half_even scaled (2 ^ (- e)) in
      (if s then "-" else "") ++ fixed_digits prec n
  end.

End Py.

(** The newline character of the f-strings' [\n]. *)
Definition nl : string := String "010"%char "".

(** ** The part of Tk the handlers touch *)

Module Tk.

Inductive State := NORMAL | DISABLED.

(** A Text widget: its [state] option and what it displays (Tk's own
    final newline left out). *)
Record Text := { state : State; content : string }.

(** [w.config(state=st)] *)
Definition config_state (st : State) (w : Text) : Text :=
  {| state := st; content := content w |}.

(** [w.get(1.0, tk.END)]: everything, with Tk's final newline. *)
Definition get (w : Text) : string := content w ++ nl.

(** [w.delete(1.0, tk.END)]; a disabled widget ignores it. *)
Definition delete (w : Text) : Text :=
  match state w with
  | NORMAL => {| state := NORMAL; content := "" |}
  | DISABLED => w
  end.

(** [w.insert(tk.END, s)]; a disabled widget ignores it. *)
Definition insert (s : string) (w : Text) : Text :=
  match state w with
  | NORMAL => {| state := NORMAL; content := content w ++ s |}
  | DISABLED => w
  end.

End Tk.

(** ** External pipelines *)

(** What [except Exception as e] catches, by its message. *)
Inductive Exn := Exception (msg : string).

(** [str(e)] *)
Definition str_exn (e : Exn) : string := match e with Exception m => m end.

Module Entity.
Record t := { entity_group : string; word : string; score : float }.
End Entity.

Module MaskPrediction.
Record t := { sequence : string; score : float; token_str : string }.
End MaskPrediction.

(** A loaded pipeline is a black box from a text to a list of
    predictions, or to an exception. *)
Definition Pipeline (A : Type) : Type := string -> Exn + list A.

(** ** The application object *)

(** References to the Text widgets the application holds, one per
    attribute of that name. *)
Inductive TextAttr :=
| EnvTextInput | EnvResults | ImagePromptInput
| NerTextInput | NerResults | MaskTextInput | MaskResults.

(** The attributes of [self] the handlers use. An attribute that
    [init_models] assigns is [None] while unassigned (a pipeline that
    fails to load aborts [init_models]); [image_label] is the label's
    text. *)
Record App := {
  env_text_input : Tk.Text;
  env_results : Tk.Text;
  image_prompt_input : Tk.Text;
  image_label : string;
  ner_text_input : Tk.Text;
  ner_results : Tk.Text;
  mask_text_input : Tk.Text;
  mask_results : Tk.Text;
  ner : option (Pipeline Entity.t);
  mask_filler : option (Pipeline MaskPrediction.t);
  image_gen : option (option unit)
}.

Definition get_text (a : TextAttr) (app : App) : Tk.Text :=
  match a with
  | EnvTextInput => env_text_input app
  | EnvResults => env_results app
  | ImagePromptInput => image_prompt_input app
  | NerTextInput => ner_text_input app
  | NerResults => ner_results app
  | MaskTextInput => mask_text_input app
  | MaskResults => mask_results app
  end.

Definition set_text (a : TextAttr) (w : Tk.Text) (app : App) : App :=
  let pick b := match a, b with
                | EnvTextInput, EnvTextInput | EnvResults, EnvResults
                | ImagePromptInput, ImagePromptInput
                | NerTextInput, NerTextInput | NerResults, NerResults
                | MaskTextInput, MaskTextInput | MaskResults, MaskResults => w
                | _, _ => get_text b app
                end in
  {| env_text_input := pick EnvTextInput;
     env_results := pick EnvResults;
     image_prompt_input := pick ImagePromptInput;
     image_label := image_label app;
     ner_text_input := pick NerTextInput;
     ner_results := pick NerResults;
     mask_text_input := pick MaskTextInput;
     mask_results := pick MaskResults;
     ner := ner app;
     mask_filler := mask_filler app;
     image_gen := image_gen app |}.

Definition set_image_label (s : string) (app : App) : App :=
  {| env_text_input := env_text_input app;
     env_results := env_results app;
     image_prompt_input := image_prompt_input app;
     image_label := s;
     ner_text_input := ner_text_input app;
     ner_results := ner_results app;
     mask_text_input := mask_text_input app;
     mask_results := mask_results app;
     ner := ner app;
     mask_filler := mask_filler app;
     image_gen := image_gen app |}.

(** ** Handlers as computations *)

(** What a run shows outside the application object. *)
Inductive Event :=
| ShowWarning (title message : string)
| ShowError (title message : string)
| ShowInfo (title message : string)
| PipelineCall (task text : string).

Record World := { app : App; trace : list Event }.

Inductive Outcome (A : Type) :=
| Normal (a : A)
| Raised (e : Exn).
Arguments Normal {A} a.
Arguments Raised {A} e.

Definition M (A : Type) : Type := World -> Outcome A * World.

Definition ret {A} (a : A) : M A := fun w => (Normal a, w).

Definition bind {A B} (c : M A) (k : A -> M B) : M B :=
  fun w =>
    match c w with
    | (Normal a, w') => k a w'
    | (Raised e, w') => (Raised e, w')
    end.

Definition raise {A} (e : Exn) : M A := fun w => (Raised e, w).

(** [try: body except Exception as e: handler(e)] *)
Definition try_except {A} (body : M A) (handler : Exn -> M A) : M A :=
  fun w =>
    match body w with
    | (Normal a, w') => (Normal a, w')
    | (Raised e, w') => handler e w'
    end.

Declare Scope py_scope.
Delimit Scope py_scope with py.
Notation "x <- c ;; k" := (bind c (fun x => k))
  (at level 61, c at next level, right associativity) : py_scope.
Notation "c ;; k" := (bind c (fun _ => k))
  (at level 61, right associativity) : py_scope.
Local Open Scope py_scope.

Definition emit (e : Event) : M unit :=
  fun w => (Normal tt, {| app := app w; trace := trace w ++ [e] |}).

Definition modify (f : App -> App) : M unit :=
  fun w => (Normal tt, {| app := f (app w); trace := trace w |}).

Definition read {A} (f : App -> A) : M A :=
  fun w => (Normal (f (app w)), w).

(** [messagebox.showwarning], [showerror], [showinfo] *)
Definition showwarning (title message : string) : M unit :=
  emit (ShowWarning title message).
Definition showerror (title message : string) : M unit :=
  emit (ShowError title message).
Definition showinfo (title message : string) : M unit :=
  emit (ShowInfo title message).

(** [self.<a>.get(1.0, tk.END)] *)
Definition text_get (a : TextAttr) : M string :=
  read (fun app => Tk.get (get_text a app)).

Definition text_config (a : TextAttr) (st : Tk.State) : M unit :=
  modify (fun app => set_text a (Tk.config_state st (get_text a app)) app).

Definition text_delete (a : TextAttr) : M unit :=
  modify (fun app => set_text a (Tk.delete (get_text a app)) app).

Definition text_insert (a : TextAttr) (s : string) : M unit :=
  modify (fun app => set_text a (Tk.insert s (get_text a app)) app).

(** [self.image_label.config(text=s)] *)
Definition image_label_config (s : string) : M unit :=
  modify (set_image_label s).

(** [self.<attr>(text)] for a pipeline attribute: AttributeError when
    [init_models] never assigned it, else the call, which may raise. *)
Definition call_pipeline {A} (attr : string) (p : App -> option (Pipeline A))
    (text : string) : M (list A) :=
  h <- read p ;;
  match h with
  | None =>
      raise (Exception ("'ModernNLPApp' object has no attribute '" ++ attr ++ "'"))
  | Some f =>
      emit (PipelineCall attr text) ;;
      match f text with
      | inl e => raise e
      | inr r => ret r
      end
  end.

(** ** src/modern_nlp_app.py *)

Module ModernNlpApp.

Definition update_results (text_widget : TextAttr) (content : string) : M unit :=
  text_config text_widget Tk.NORMAL ;;
  text_delete text_widget ;;
  text_insert text_widget content ;;
  text_config text_widget Tk.DISABLED.

Definition keywords : list string :=
  ["climate"; "pollution"; "earth"; "global warming"; "deforestation";
   "recycle"; "environment"; "sustainability"; "carbon"; "emissions";
   "renewable"; "biodiversity"].

(** [sum(1 for kw in keywords if kw in text.lower())] *)
Definition score (text : string) : Z :=
  Py.sum (map (fun _ => 1)
              (filter (fun kw => Py.contains kw (Py.lower text)) keywords)).

(** [min(score / 3, 1.0)] *)
Definition confidence (text : string) : float :=
  Py.min (Py.truediv (score text) 3) 1%float.

(** [[kw for kw in keywords if kw in text.lower()]] *)
Definition detected (text : string) : list string :=
  filter (fun kw => Py.contains kw (Py.lower text)) keywords.

(** The local [result] of [classify_environment]. *)
Definition result (text : string) : string :=
  if 0 <? score text then
    ("Classification: Environment-related" ++ nl ++
     "Confidence: " ++ Py.format_f 2 (confidence text) ++ nl ++
     "Keywords found: " ++ Py.str_int (score text) ++ nl ++ nl) ++
    "Environmental keywords detected: " ++ Py.join ", " (detected text)
  else
    "Classification: Not Environment-related" ++ nl ++
    "Confidence: " ++
    Py.format_f 2 (PrimFloat.sub (Py.float_of_int 1) (confidence text)) ++
    nl ++ nl ++ "No environmental keywords detected.".

Definition classify_environment : M unit :=
  raw <- text_get EnvTextInput ;;
  let text := Py.strip raw in
  if Py.not_str text then
    showwarning "Warning" "Please enter some text to analyze."
  else
    try_except
      (update_results EnvResults (result text))
      (fun e => showerror "Error" ("Classification failed: " ++ str_exn e)).

Definition generate_image : M unit :=
  raw <- text_get ImagePromptInput ;;
  let prompt := Py.strip raw in
  if Py.not_str prompt then
    showwarning "Warning" "Please enter an image prompt."
  else
    image_label_config
      ("Generating image for: '" ++ prompt ++ "'" ++ nl ++ nl ++
       "(Image generation placeholder)").

(** One turn of the loop over [enumerate(entities, 1)]. *)
Definition entity_step (result : string) (ie : Z * Entity.t) : string :=
  let (i, entity) := ie in
  let result :=
    result ++ Py.str_int i ++ ". " ++ Entity.entity_group entity ++ ": " ++
    Entity.word entity ++ nl in
  result ++ "   Confidence: " ++ Py.format_f 3 (Entity.score entity) ++ nl ++ nl.

Definition entities_result (entities : list Entity.t) : string :=
  match entities with
  | [] => "No named entities found in the text."
  | _ :: _ =>
      fold_left entity_step (Py.enumerate entities 1)
        ("Extracted Entities:" ++ nl ++ Py.repeat_str "=" 50 ++ nl ++ nl)
  end.

Definition extract_entities : M unit :=
  raw <- text_get NerTextInput ;;
  let text := Py.strip raw in
  if Py.not_str text then
    showwarning "Warning" "Please enter some text to analyze."
  else
    try_except
      (entities <- call_pipeline "ner" ner text ;;
       update_results NerResults (entities_result entities))
      (fun e => showerror "Error" ("Entity extraction failed: " ++ str_exn e)).

(** One turn of the loop over [enumerate(predictions, 1)]. *)
Definition prediction_step (result : string) (ip : Z * MaskPrediction.t) : string :=
  let (i, pred) := ip in
  let result := result ++ Py.str_int i ++ ". " ++ MaskPrediction.sequence pred ++ nl in
  let result :=
    result ++ "   Confidence: " ++ Py.format_f 3 (MaskPrediction.score pred) ++ nl in
  result ++ "   Token: " ++ MaskPrediction.token_str pred ++ nl ++ nl.

Definition predictions_result (predictions : list MaskPrediction.t) : string :=
  fold_left prediction_step (Py.enumerate predictions 1)
    ("Mask Predictions:" ++ nl ++ Py.repeat_str "=" 50 ++ nl ++ nl).

Definition fill_mask : M unit :=
  raw <- text_get MaskTextInput ;;
  let text := Py.strip raw in
  if Py.not_str text || negb (Py.contains "[MASK]" text) then
    showwarning "Warning" "Please include [MASK] in your text."
  else
    try_except
      (predictions <- call_pipeline "mask_filler" mask_filler text ;;
       update_results MaskResults (predictions_result predictions))
      (fun e => showerror "Error" ("Mask filling failed: " ++ str_exn e)).

End ModernNlpApp.

(** ** src/nlp_project.py *)

Module NlpProject.

Definition update_results (text_widget : TextAttr) (content : string) : M unit :=
  text_config text_widget Tk.NORMAL ;;
  text_delete text_widget ;;
  text_insert text_widget content ;;
  text_config text_widget Tk.DISABLED.

Definition keywords : list string :=
  ["climate"; "pollution"; "earth"; "global warming";
   "deforestation"; "recycle"; "environment"; "sustainability";
   "carbon"; "emissions"; "renewable"; "biodiversity"].

Definition score (text : string) : Z :=
  Py.sum (map (fun _ => 1)
              (filter (fun kw => Py.contains kw (Py.lower text)) keywords)).

Definition confidence (text : string) : float :=
  Py.min (Py.truediv (score text) 3) 1%float.

Definition detected (text : string) : list string :=
  filter (fun kw => Py.contains kw (Py.lower text)) keywords.

(** The local [label] of [classify_environment]. *)
Definition label (text : string) : string :=
  if 0 <? score text then "Environment-related" else "Not Environment-related".

(** The local [result] of [classify_environment]. *)
Definition result (text : string) : string :=
  if 0 <? score text then
    ("Classification: " ++ label text ++ nl ++
     "Confidence: " ++ Py.format_f 2 (confidence text) ++ nl ++
     "Keywords found: " ++ Py.str_int (score text) ++ nl ++ nl) ++
    "Environmental keywords detected: " ++ Py.join ", " (detected text)
  else
    "Classification: " ++ label text ++ nl ++
    "Confidence: " ++
    Py.format_f 2 (PrimFloat.sub (Py.float_of_int 1) (confidence text)) ++
    nl ++ nl ++ "No environmental keywords detected.".

Definition classify_environment : M unit :=
  raw <- text_get EnvTextInput ;;
  let text := Py.strip raw in
  if Py.not_str text then
    showwarning "Warning" "Please enter some text to analyze."
  else
    try_except
      (update_results EnvResults (result text))
      (fun e => showerror "Error" ("Classification failed: " ++ str_exn e)).

Definition generate_image : M unit :=
  raw <- text_get ImagePromptInput ;;
  let prompt := Py.strip raw in
  if Py.not_str prompt then
    showwarning "Warning" "Please enter an image prompt."
  else
    g <- read image_gen ;;
    match g with
    | None =>
        raise (Exception "'ModernNLPApp' object has no attribute 'image_gen'")
    | Some None =>
        showinfo "Info"
          "Image generation model not available. This would generate an image based on your prompt."
    | Some (Some _) =>
        try_except
          (image_label_config
             ("Generating image for: '" ++ prompt ++ "'" ++ nl ++ nl ++
              "(Image generation requires additional setup)"))
          (fun e => showerror "Error" ("Image generation failed: " ++ str_exn e))
    end.

Definition entity_step (result : string) (ie : Z * Entity.t) : string :=
  let (i, entity) := ie in
  let result :=
    result ++ Py.str_int i ++ ". " ++ Entity.entity_group entity ++ ": " ++
    Entity.word entity ++ nl in
  result ++ "   Confidence: " ++ Py.format_f 3 (Entity.score entity) ++ nl ++ nl.

Definition entities_result (entities : list Entity.t) : string :=
  match entities with
  | [] => "No named entities found in the text."
  | _ :: _ =>
      fold_left entity_step (Py.enumerate entities 1)
        ("Extracted Entities:" ++ nl ++ Py.repeat_str "=" 50 ++ nl ++ nl)
  end.

Definition extract_entities : M unit :=
  raw <- text_get NerTextInput ;;
  let text := Py.strip raw in
  if Py.not_str text then
    showwarning "Warning" "Please enter some text to analyze."
  else
    try_except
      (entities <- call_pipeline "ner" ner text ;;
       update_results NerResults (entities_result entities))
      (fun e => showerror "Error" ("Entity extraction failed: " ++ str_exn e)).

Definition prediction_step (result : string) (ip : Z * MaskPrediction.t) : string :=
  let (i, pred) := ip in
  let result := result ++ Py.str_int i ++ ". " ++ MaskPrediction.sequence pred ++ nl in
  let result :=
    result ++ "   Confidence: " ++ Py.format_f 3 (MaskPrediction.score pred) ++ nl in
  result ++ "   Token: " ++ MaskPrediction.token_str pred ++ nl ++ nl.

Definition predictions_result (predictions : list MaskPrediction.t) : string :=
  fold_left prediction_step (Py.enumerate predictions 1)
    ("Mask Predictions:" ++ nl ++ Py.repeat_str "=" 50 ++ nl ++ nl).

Definition fill_mask : M unit :=
  raw <- text_get MaskTextInput ;;
  let text := Py.strip raw in
  if Py.not_str text then
    showwarning "Warning" "Please enter text with [MASK] tokens."
  else if negb (Py.contains "[MASK]" text) then
    showwarning "Warning" "Please include [MASK] tokens in your text."
  else
    try_except
      (predictions <- call_pipeline "mask_filler" mask_filler text ;;
       update_results MaskResults (predictions_result predictions))
      (fun e => showerror "Error" ("Mask filling failed: " ++ str_exn e)).

End NlpProject.

(** ** Running a handler *)

(** The user replacing what widget [a] holds by [s]. *)
Definition typed (a : TextAttr) (s : string) (app : App) : App :=
  set_text a (Tk.insert s (Tk.delete (get_text a app))) app.

(** A button press: the handler run from an empty trace. *)
Definition press (handler : M unit) (app0 : App) : Outcome unit * World :=
  handler {| app := app0; trace := [] |}.

(** The application as [create_ui] leaves it (inputs editable and
    empty, result regions disabled and empty), with the model handles
    given. *)
Definition created (n : option (Pipeline Entity.t))
    (m : option (Pipeline MaskPrediction.t)) (g : option (option unit)) : App :=
  {| env_text_input := {| Tk.state := Tk.NORMAL; Tk.content := "" |};
     env_results := {| Tk.state := Tk.DISABLED; Tk.content := "" |};
     image_prompt_input := {| Tk.state := Tk.NORMAL; Tk.content := "" |};
     image_label := "Generated image will appear here";
     ner_text_input := {| Tk.state := Tk.NORMAL; Tk.content := "" |};
     ner_results := {| Tk.state := Tk.DISABLED; Tk.content := "" |};
     mask_text_input := {| Tk.state := Tk.NORMAL; Tk.content := "" |};
     mask_results := {| Tk.state := Tk.DISABLED; Tk.content := "" |};
     ner := n; mask_filler := m; image_gen := g |}.

(** ** Vocabulary of the statements *)

(** [kw] is a substring of [s]. *)
Definition occurs (kw s : string) : Prop := exists a b, s = a ++ kw ++ b.

(** [s] is empty or made of whitespace only. *)
Fixpoint blank (s : string) : bool :=
  match s with
  | EmptyString => true
  | String c r => Py.isspace c && blank r
  end.

(** Number of occurrences of the character [c] in [s]. *)
Fixpoint count_char (c : ascii) (s : string) : nat :=
  match s with
  | EmptyString => O
  | String d r => (if Ascii.eqb c d then 1 else 0) + count_char c r
  end.

(** [min(n / 3, 1.0)] as a function of the score. *)
Definition confidence_of (n : Z) : float := Py.min (Py.truediv n 3) 1%float.

(** The four trigger buttons, the input each one reads, and the
    [command=] each one is created with. *)
Inductive Action := Classify | GenerateImage | ExtractEntities | FillMask.

Definition input_of (act : Action) : TextAttr :=
  match act with
  | Classify => EnvTextInput
  | GenerateImage => ImagePromptInput
  | ExtractEntities => NerTextInput
  | FillMask => MaskTextInput
  end.

Definition modern_command (act : Action) : M unit :=
  match act with
  | Classify => ModernNlpApp.classify_environment
  | GenerateImage => ModernNlpApp.generate_image
  | ExtractEntities => ModernNlpApp.extract_entities
  | FillMask => ModernNlpApp.fill_mask
  end.

Definition project_command (act : Action) : M unit :=
  match act with
  | Classify => NlpProject.classify_environment
  | GenerateImage => NlpProject.generate_image
  | ExtractEntities => NlpProject.extract_entities
  | FillMask => NlpProject.fill_mask
  end.

(** The world a handler leaves after showing one more event. *)
Definition shown (e : Event) (w : World) : World :=
  {| app := app w; trace := trace w ++ [e] |}.

(** The world after [update_results] wrote [c] into region [a]. *)
Definition rendered (a : TextAttr) (c : string) (w : World) : World :=
  {| app := set_text a {| Tk.state := Tk.DISABLED; Tk.content := c |} (app w);
     trace := trace w |}.

(** The call [self.<attr>(text)] and what follows it inside a [try]
    whose handler shows an error box. *)
Definition called {A} (attr : string) (p : option (Pipeline A)) (text what : string)
    (region : TextAttr) (fmt : list A -> string) (w : World) : Outcome unit * World :=
  match p with
  | None =>
      (Normal tt,
       shown (ShowError "Error"
                (what ++ "'ModernNLPApp' object has no attribute '" ++ attr ++ "'")) w)
  | Some f =>
      match f text with
      | inl e =>
          (Normal tt,
           shown (ShowError "Error" (what ++ str_exn e))
             (shown (PipelineCall attr text) w))
      | inr r =>
          (Normal tt, rendered region (fmt r) (shown (PipelineCall attr text) w))
      end
  end.

(** The warning each command shows on a blank input. *)
Definition modern_blank_warning (act : Action) : string :=
  match act with
  | Classify | ExtractEntities => "Please enter some text to analyze."
  | GenerateImage => "Please enter an image prompt."
  | FillMask => "Please include [MASK] in your text."
  end.

Definition project_blank_warning (act : Action) : string :=
  match act with
  | Classify | ExtractEntities => "Please enter some text to analyze."
  | GenerateImage => "Please enter an image prompt."
  | FillMask => "Please enter text with [MASK] tokens."
  end.

(** A pipeline that raises on every text. *)
Definition failing {A} (msg : string) : Pipeline A := fun _ => inl (Exception msg).

(** ** Sample applications *)

(** An application whose classifier input holds a text with three
    keywords, one of them capitalised and one occurring twice. *)
Definition app_recycle : App :=
  typed EnvTextInput "  Recycle carbon, cut carbon emissions " (created None None None).

Definition app_cats : App :=
  typed EnvTextInput "I like cats" (created None None None).

Definition app_ner_down : App :=
  typed NerTextInput "Greta spoke in Davos"
    (created (Some (failing "CUDA out of memory")) None None).

Definition app_mask_down : App :=
  typed MaskTextInput "The earth is [MASK]."
    (created None (Some (failing "CUDA out of memory")) None).

Definition app_blank : App :=
  typed MaskTextInput "   " (created None None None).

Definition app_no_mask : App :=
  typed MaskTextInput "The earth is round." (created None None None).

Definition app_climate : App :=
  typed EnvTextInput "Climate change and pollution affect biodiversity"
    (created None None None).

(** ** Start-up: [init_models] and [__init__] *)

Module Boot.

(** What [transformers.pipeline] gives for each of the four loads the
    files ask for: the loaded pipeline, or the exception it raises. *)
Record Hub := {
  text_classification : Exn + unit;
  ner_pipeline : Exn + Pipeline Entity.t;
  fill_mask_pipeline : Exn + Pipeline MaskPrediction.t;
  text_to_image : Exn + unit
}.

(** The attributes [init_models] assigns; [None] while unassigned. *)
Record Attrs := {
  env_classifier : option unit;
  ner : option (Pipeline Entity.t);
  mask_filler : option (Pipeline MaskPrediction.t);
  image_gen : option (option unit)
}.

(** What start-up shows outside the object: a line on standard
    output, a call to [pipeline(task, ...)], a message box. *)
Inductive Step :=
| Printed (line : string)
| Loading (task : string)
| Box (e : Event).

Record State := { attrs : Attrs; log : list Step }.

Definition B (A : Type) : Type := State -> Outcome A * State.

Definition ret {A} (a : A) : B A := fun s => (Normal a, s).

Definition bind {A C} (c : B A) (k : A -> B C) : B C :=
  fun s =>
    match c s with
    | (Normal a, s') => k a s'
    | (Raised e, s') => (Raised e, s')
    end.

Definition raise {A} (e : Exn) : B A := fun s => (Raised e, s).

Definition try_except {A} (body : B A) (handler : Exn -> B A) : B A :=
  fun s =>
    match body s with
    | (Normal a, s') => (Normal a, s')
    | (Raised e, s') => handler e s'
    end.

Definition emit (x : Step) : B unit :=
  fun s => (Normal tt, {| attrs := attrs s; log := log s ++ [x] |}).

Definition assign (f : Attrs -> Attrs) : B unit :=
  fun s => (Normal tt, {| attrs := f (attrs s); log := log s |}).

(** [pipeline(task, ...)] *)
Definition pipeline {H} (task : string) (outcome : Exn + H) : B H :=
  bind (emit (Loading task))
       (fun _ => match outcome with
                 | inl e => raise e
                 | inr h => ret h
                 end).

Definition set_env_classifier (c : unit) (a : Attrs) : Attrs :=
  {| env_classifier := Some c; ner := ner a;
     mask_filler := mask_filler a; image_gen := image_gen a |}.

Definition set_ner (n : Pipeline Entity.t) (a : Attrs) : Attrs :=
  {| env_classifier := env_classifier a; ner := Some n;
     mask_filler := mask_filler a; image_gen := image_gen a |}.

Definition set_mask_filler (m : Pipeline MaskPrediction.t) (a : Attrs) : Attrs :=
  {| env_classifier := env_classifier a; ner := ner a;
     mask_filler := Some m; image_gen := image_gen a |}.

Definition set_image_gen (g : option unit) (a : Attrs) : Attrs :=
  {| env_classifier := env_classifier a; ner := ner a;
     mask_filler := mask_filler a; image_gen := Some g |}.

(** [show_loading_message]: [print(f"Loading: {message}")] *)
Definition show_loading_message (message : string) : B unit :=
  emit (Printed ("Loading: " ++ message)).

Definition showerror (title message : string) : B unit :=
  emit (Box (ShowError title message)).

(** [init_models] of src/modern_nlp_app.py *)
Definition modern_init_models (hub : Hub) : B unit :=
  try_except
    (bind (show_loading_message "Loading NLP models...") (fun _ =>
     bind (pipeline "text-classification" (text_classification hub)) (fun c =>
     bind (assign (set_env_classifier c)) (fun _ =>
     bind (pipeline "ner" (ner_pipeline hub)) (fun n =>
     bind (assign (set_ner n)) (fun _ =>
     bind (pipeline "fill-mask" (fill_mask_pipeline hub)) (fun m =>
     bind (assign (set_mask_filler m)) (fun _ =>
     try_except
       (assign (set_image_gen None))
       (fun _ => assign (set_image_gen None))))))))))
    (fun e => showerror "Error" ("Failed to load models: " ++ str_exn e)).

(** [init_models] of src/nlp_project.py *)
Definition project_init_models (hub : Hub) : B unit :=
  try_except
    (bind (show_loading_message "Loading NLP models...") (fun _ =>
     bind (pipeline "text-classification" (text_classification hub)) (fun c =>
     bind (assign (set_env_classifier c)) (fun _ =>
     bind (pipeline "ner" (ner_pipeline hub)) (fun n =>
     bind (assign (set_ner n)) (fun _ =>
     bind (pipeline "fill-mask" (fill_mask_pipeline hub)) (fun m =>
     bind (assign (set_mask_filler m)) (fun _ =>
     try_except
       (bind (pipeline "text-to-image" (text_to_image hub)) (fun g =>
        assign (set_image_gen (Some g))))
       (fun _ => assign (set_image_gen None))))))))))
    (fun e => showerror "Error" ("Failed to load models: " ++ str_exn e)).

(** The object before [init_models]: nothing assigned, nothing shown. *)
Definition fresh : State :=
  {| attrs := {| env_classifier := None; ner := None;
                 mask_filler := None; image_gen := None |};
     log := [] |}.

(** [__init__]: [init_models], then [create_ui] around the attributes
    it left (the window title, geometry and styles set before them
    carry no state the handlers read). An exception out of
    [init_models] would end [__init__]. *)
Definition init (init_models : Hub -> B unit) (hub : Hub) : Outcome App * list Step :=
  match init_models hub fresh with
  | (Normal _, s) =>
      (Normal (created (ner (attrs s)) (mask_filler (attrs s)) (image_gen (attrs s))),
       log s)
  | (Raised e, s) => (Raised e, log s)
  end.

(** The first of the three language pipelines that fails to load. *)
Definition first_failure (hub : Hub) : option Exn :=
  match text_classification hub, ner_pipeline hub, fill_mask_pipeline hub with
  | inl e, _, _ => Some e
  | inr _, inl e, _ => Some e
  | inr _, inr _, inl e => Some e
  | inr _, inr _, inr _ => None
  end.

Definition boxes (l : list Step) : list Event :=
  flat_map (fun x => match x with Box e => [e] | _ => [] end) l.

Definition loads (l : list Step) : list string :=
  flat_map (fun x => match x with Loading t => [t] | _ => [] end) l.

End Boot.

(** ** The event loop *)

(** What the user does between two returns to [mainloop]: replace the
    text of a widget, or press one of the four buttons. *)
Inductive UserEvent :=
| Types (a : TextAttr) (s : string)
| Presses (act : Action).

(** One turn of [mainloop]. An exception a command lets out is
    reported by Tk and the loop goes on. *)
Definition turn (command : Action -> M unit) (w : World) (ev : UserEvent) : World :=
  match ev with
  | Types a s => {| app := typed a s (app w); trace := trace w |}
  | Presses act => snd (command act w)
  end.

Definition mainloop (command : Action -> M unit) (evs : list UserEvent)
    (w : World) : World :=
  fold_left (turn command) evs w.

(** ** Further vocabulary *)

(** The result region a command renders into, if any. *)
Definition region_of (act : Action) : option TextAttr :=
  match act with
  | Classify => Some EnvResults
  | ExtractEntities => Some NerResults
  | FillMask => Some MaskResults
  | GenerateImage => None
  end.

Definition is_region (a : TextAttr) : bool :=
  match a with
  | EnvResults | NerResults | MaskResults => true
  | _ => false
  end.

Definition is_box (e : Event) : bool :=
  match e with PipelineCall _ _ => false | _ => true end.

Definition is_call (e : Event) : bool :=
  match e with PipelineCall _ _ => true | _ => false end.

(** [l] is [m] with some elements left out, the order kept. *)
Inductive subseq {A} : list A -> list A -> Prop :=
| subseq_nil : subseq [] []
| subseq_skip x l m : subseq l m -> subseq l (x :: m)
| subseq_take x l m : subseq l m -> subseq (x :: l) (x :: m).

(** The lines [extract_entities] adds for entity number [i]. *)
Definition entity_block (ie : Z * Entity.t) : string :=
  Py.str_int (fst ie) ++ ". " ++ Entity.entity_group (snd ie) ++ ": " ++
  Entity.word (snd ie) ++ nl ++
  "   Confidence: " ++ Py.format_f 3 (Entity.score (snd ie)) ++ nl ++ nl.

(** The lines [fill_mask] adds for prediction number [i]. *)
Definition prediction_block (ip : Z * MaskPrediction.t) : string :=
  Py.str_int (fst ip) ++ ". " ++ MaskPrediction.sequence (snd ip) ++ nl ++
  "   Confidence: " ++ Py.format_f 3 (MaskPrediction.score (snd ip)) ++ nl ++
  "   Token: " ++ MaskPrediction.token_str (snd ip) ++ nl ++ nl.

Definition concat_str (l : list string) : string := fold_right append "" l.

(** The first [n] positive numbers paired with the elements of [l]. *)
Definition numbered {A} (l : list A) : list (Z * A) :=
  combine (map (fun i => Z.of_nat (S i)) (seq 0 (length l))) l.

(** Command [act] may call the pipeline attribute [attr] in world [w]. *)
Definition callable (act : Action) (attr : string) (w : World) : Prop :=
  (act = ExtractEntities /\ attr = "ner" /\ ner (app w) <> None) \/
  (act = FillMask /\ attr = "mask_filler" /\ mask_filler (app w) <> None).

(** The shapes a world can take after one command. *)
Inductive effect (act : Action) (w : World) : World -> Prop :=
| effect_raise :
    act = GenerateImage -> effect act w w
| effect_box e :
    is_box e = true -> effect act w (shown e w)
| effect_render a c :
    act = Classify -> region_of act = Some a -> effect act w (rendered a c w)
| effect_call_render attr t a c :
    callable act attr w -> region_of act = Some a ->
    effect act w (rendered a c (shown (PipelineCall attr t) w))
| effect_call_box attr t e :
    callable act attr w -> is_box e = true ->
    effect act w (shown e (shown (PipelineCall attr t) w))
| effect_label s :
    act = GenerateImage ->
    effect act w {| app := set_image_label s (app w); trace := trace w |}.

(** Every result region of [w] is disabled. *)
Definition read_only (w : World) : Prop :=
  forall a, is_region a = true -> Tk.state (get_text a (app w)) = Tk.DISABLED.

(** The pipeline attribute [attr] is one of the two the commands call
    and is assigned in [w]. *)
Definition loaded (attr : string) (w : World) : Prop :=
  (attr = "ner" /\ ner (app w) <> None) \/
  (attr = "mask_filler" /\ mask_filler (app w) <> None).

(** [main]: build the application, then serve the user's events. *)
Definition main (init_models : Boot.Hub -> Boot.B unit) (command : Action -> M unit)
    (hub : Boot.Hub) (evs : list UserEvent) : Outcome World :=
  match Boot.init init_models hub with
  | (Normal app0, _) => Normal (mainloop command evs {| app := app0; trace := [] |})
  | (Raised e, _) => Raised e
  end.

(** A hub whose mask-filling model fails to load. *)
Definition hub_mask_down : Boot.Hub :=
  {| Boot.text_classification := inr tt;
     Boot.ner_pipeline := inr (fun _ => inr []);
     Boot.fill_mask_pipeline := inl (Exception "connection refused");
     Boot.text_to_image := inl (Exception "unknown task") |}.

Definition app_three : App :=
  typed MaskTextInput "The [MASK] is warm."
    (typed NerTextInput "Greta spoke in Davos"
       (typed EnvTextInput "Recycle!" (created None None None))).

(** * Properties *)

(** ** The built-ins on sample values *)

Example strip_ex : Py.strip (" " ++ "a b" ++ String (ascii_of_N 10) "") = "a b".
Proof. reflexivity. Qed.

Example lower_ex : Py.lower "Climate Change 42!" = "climate change 42!".
Proof. reflexivity. Qed.

Example contains_ex :
  Py.contains "earth" "the earth is" = true /\ Py.contains "earth" "ear th" = false.
Proof. split; reflexivity. Qed.

Example format_ex :
  Py.format_f 2 (Py.truediv 1 3) = "0.33" /\
  Py.format_f 2 (Py.truediv 2 3) = "0.67" /\
  Py.format_f 2 0.125%float = "0.12" /\
  Py.format_f 2 0.375%float = "0.38" /\
  Py.format_f 3 0.96875%float = "0.969" /\
  Py.format_f 3 12.5%float = "12.500" /\
  Py.format_f 3 (-0.5)%float = "-0.500" /\
  Py.format_f 2 (-0.0009765625)%float = "-0.00" /\
  Py.format_f 0 2.5%float = "2" /\
  Py.format_f 1 1e22%float = "10000000000000000000000.0" /\
  Py.format_f 2 1%float = "1.00".
Proof. vm_compute. repeat split. Qed.

Example lower_latin1_ex :
  Py.lower (String (ascii_of_N 201) "COLE") = String (ascii_of_N 233) "cole" /\
  Py.lower (String (ascii_of_N 215) "") = String (ascii_of_N 215) "" /\
  Py.strip (String (ascii_of_N 160) ("x" ++ String (ascii_of_N 133) "")) = "x".
Proof. repeat split. Qed.

(** ** Strings *)

Section Strings.

Lemma append_nil_r (s : string) : s ++ "" = s.
Proof. induction s as [|c r IH]; simpl; [reflexivity | now rewrite IH]. Qed.

Lemma append_assoc (a b c : string) : (a ++ b) ++ c = a ++ b ++ c.
Proof. induction a as [|x r IH]; simpl; [reflexivity | now rewrite IH]. Qed.

Lemma startswith_spec (p s : string) :
  Py.startswith p s = true <-> exists b, s = p ++ b.
Proof.
  revert s; induction p as [|a p IH]; intros s; simpl.
  - split; [intros _; now exists s | reflexivity].
  - destruct s as [|b s].
    + split; [discriminate | intros [t H]; discriminate].
    + rewrite andb_true_iff, Ascii.eqb_eq, IH. split.
      * intros [-> [t ->]]. now exists t.
      * intros [t H]. injection H as -> ->. split; [reflexivity | now exists t].
Qed.

Lemma contains_spec (sub s : string) :
  Py.contains sub s = true <-> occurs sub s.
Proof.
  induction s as [|c r IH].
  - simpl. rewrite orb_false_r, startswith_spec. split.
    + intros [b H]. now exists "", b.
    + intros [a [b H]]. destruct a; [now exists b | discriminate].
  - change (Py.contains sub (String c r))
      with (Py.startswith sub (String c r) || Py.contains sub r).
    rewrite orb_true_iff, IH, startswith_spec. split.
    + intros [[b H] | [a [b H]]].
      * now exists "", b.
      * exists (String c a), b. simpl. now rewrite H.
    + intros [a [b H]]. destruct a as [|x a].
      * left. now exists b.
      * right. injection H as _ H. now exists a, b.
Qed.

Lemma lower_char_idem (c : ascii) : Py.lower_char (Py.lower_char c) = Py.lower_char c.
Proof. destruct c as [[] [] [] [] [] [] [] []]; reflexivity. Qed.

Lemma isspace_lower_char (c : ascii) : Py.isspace (Py.lower_char c) = Py.isspace c.
Proof. destruct c as [[] [] [] [] [] [] [] []]; reflexivity. Qed.

Lemma lower_idem (s : string) : Py.lower (Py.lower s) = Py.lower s.
Proof.
  induction s as [|c r IH]; simpl; [reflexivity|].
  now rewrite lower_char_idem, IH.
Qed.

Lemma lower_app (a b : string) : Py.lower (a ++ b) = Py.lower a ++ Py.lower b.
Proof. induction a as [|c r IH]; simpl; [reflexivity | now rewrite IH]. Qed.

Lemma lstrip_lower (s : string) : Py.lstrip (Py.lower s) = Py.lower (Py.lstrip s).
Proof.
  induction s as [|c r IH]; simpl; [reflexivity|].
  rewrite isspace_lower_char. destruct (Py.isspace c); [exact IH | reflexivity].
Qed.

Lemma rstrip_lower (s : string) : Py.rstrip (Py.lower s) = Py.lower (Py.rstrip s).
Proof.
  induction s as [|c r IH]; simpl; [reflexivity|].
  rewrite IH. destruct (Py.rstrip r) as [|d t]; simpl.
  - rewrite isspace_lower_char. now destruct (Py.isspace c).
  - reflexivity.
Qed.

Lemma strip_lower (s : string) : Py.strip (Py.lower s) = Py.lower (Py.strip s).
Proof. unfold Py.strip. now rewrite lstrip_lower, rstrip_lower. Qed.

Lemma blank_lstrip (s : string) : blank (Py.lstrip s) = blank s.
Proof.
  induction s as [|c r IH]; simpl; [reflexivity|].
  destruct (Py.isspace c) eqn:E; simpl; [exact IH | now rewrite E].
Qed.

Lemma rstrip_empty (s : string) : Py.rstrip s = "" <-> blank s = true.
Proof.
  induction s as [|c r IH]; simpl; [tauto|].
  rewrite andb_true_iff, <- IH.
  destruct (Py.rstrip r) as [|d t].
  - destruct (Py.isspace c); split; intros H; try discriminate; auto.
    now destruct H.
  - split; [discriminate | intros [_ H]; discriminate].
Qed.

(** [s.strip()] is empty exactly on the blank strings. *)
Lemma strip_empty (s : string) : Py.strip s = "" <-> blank s = true.
Proof. unfold Py.strip. now rewrite rstrip_empty, blank_lstrip. Qed.

Lemma blank_app (a b : string) : blank (a ++ b) = blank a && blank b.
Proof.
  induction a as [|c r IH]; simpl; [reflexivity|].
  now rewrite IH, andb_assoc.
Qed.

(** What [get(1.0, END)] returns strips to nothing exactly when the
    widget holds a blank string. *)
Lemma not_str_strip_get (w : Tk.Text) :
  Py.not_str (Py.strip (Tk.get w)) = blank (Tk.content w).
Proof.
  unfold Tk.get.
  destruct (blank (Tk.content w)) eqn:E.
  - assert (H : Py.strip (Tk.content w ++ nl) = "").
    { apply strip_empty. rewrite blank_app, E. reflexivity. }
    now rewrite H.
  - destruct (Py.strip (Tk.content w ++ nl)) eqn:H; [|reflexivity].
    apply strip_empty in H. rewrite blank_app, E in H. discriminate.
Qed.

Lemma not_str_false (s : string) : s <> "" -> Py.not_str s = false.
Proof. destruct s; [congruence | reflexivity]. Qed.

Lemma count_char_app (c : ascii) (a b : string) :
  count_char c (a ++ b) = (count_char c a + count_char c b)%nat.
Proof. induction a as [|d r IH]; simpl; [reflexivity | rewrite IH; lia]. Qed.

End Strings.

(** ** What each handler does to the world *)

Section Runs.

Lemma modern_update_results_run (a : TextAttr) (c : string) (w : World) :
  ModernNlpApp.update_results a c w = (Normal tt, rendered a c w).
Proof. destruct a; reflexivity. Qed.

Lemma project_update_results_same (a : TextAttr) (c : string) (w : World) :
  NlpProject.update_results a c w = ModernNlpApp.update_results a c w.
Proof. reflexivity. Qed.

Lemma modern_classify_run (w : World) :
  ModernNlpApp.classify_environment w =
  let text := Py.strip (Tk.get (env_text_input (app w))) in
  if Py.not_str text then
    (Normal tt, shown (ShowWarning "Warning" "Please enter some text to analyze.") w)
  else (Normal tt, rendered EnvResults (ModernNlpApp.result text) w).
Proof.
  unfold ModernNlpApp.classify_environment, bind, text_get, read, try_except.
  cbn [get_text]. cbv zeta.
  destruct (Py.not_str (Py.strip (Tk.get (env_text_input (app w))))).
  - reflexivity.
  - now rewrite modern_update_results_run.
Qed.

Lemma project_result_same (text : string) :
  NlpProject.result text = ModernNlpApp.result text.
Proof.
  unfold NlpProject.result, ModernNlpApp.result, NlpProject.label.
  change (NlpProject.score text) with (ModernNlpApp.score text).
  destruct (0 <? ModernNlpApp.score text); reflexivity.
Qed.

Lemma project_classify_same (w : World) :
  NlpProject.classify_environment w = ModernNlpApp.classify_environment w.
Proof.
  unfold NlpProject.classify_environment, ModernNlpApp.classify_environment,
    bind, text_get, read, try_except.
  cbn [get_text]. cbv zeta.
  destruct (Py.not_str (Py.strip (Tk.get (env_text_input (app w))))).
  - reflexivity.
  - now rewrite project_result_same.
Qed.

Lemma try_call_run {A} (attr : string) (p : App -> option (Pipeline A))
    (text what : string) (region : TextAttr) (fmt : list A -> string) (w : World) :
  try_except
    (r <- call_pipeline attr p text ;; ModernNlpApp.update_results region (fmt r))
    (fun e => showerror "Error" (what ++ str_exn e)) w
  = called attr (p (app w)) text what region fmt w.
Proof.
  cbv [try_except bind call_pipeline read called emit raise ret showerror].
  destruct (p (app w)) as [f|]; [|reflexivity].
  destruct (f text) as [e|r]; [reflexivity|].
  cbv beta iota. now rewrite modern_update_results_run.
Qed.

Lemma modern_extract_run (w : World) :
  ModernNlpApp.extract_entities w =
  let text := Py.strip (Tk.get (ner_text_input (app w))) in
  if Py.not_str text then
    (Normal tt, shown (ShowWarning "Warning" "Please enter some text to analyze.") w)
  else
    called "ner" (ner (app w)) text "Entity extraction failed: "
      NerResults ModernNlpApp.entities_result w.
Proof.
  unfold ModernNlpApp.extract_entities.
  unfold bind at 1. unfold text_get, read. cbn [get_text]. cbv zeta.
  destruct (Py.not_str (Py.strip (Tk.get (ner_text_input (app w))))).
  - reflexivity.
  - apply (try_call_run "ner" ner).
Qed.

Lemma project_extract_same (w : World) :
  NlpProject.extract_entities w = ModernNlpApp.extract_entities w.
Proof. reflexivity. Qed.

Lemma project_extract_run (w : World) :
  NlpProject.extract_entities w =
  let text := Py.strip (Tk.get (ner_text_input (app w))) in
  if Py.not_str text then
    (Normal tt, shown (ShowWarning "Warning" "Please enter some text to analyze.") w)
  else
    called "ner" (ner (app w)) text "Entity extraction failed: "
      NerResults NlpProject.entities_result w.
Proof. exact (modern_extract_run w). Qed.

Lemma modern_fill_mask_run (w : World) :
  ModernNlpApp.fill_mask w =
  let text := Py.strip (Tk.get (mask_text_input (app w))) in
  if Py.not_str text || negb (Py.contains "[MASK]" text) then
    (Normal tt, shown (ShowWarning "Warning" "Please include [MASK] in your text.") w)
  else
    called "mask_filler" (mask_filler (app w)) text "Mask filling failed: "
      MaskResults ModernNlpApp.predictions_result w.
Proof.
  unfold ModernNlpApp.fill_mask.
  unfold bind at 1. unfold text_get, read. cbn [get_text]. cbv zeta.
  destruct (Py.not_str _ || negb _).
  - reflexivity.
  - apply (try_call_run "mask_filler" mask_filler).
Qed.

Lemma project_fill_mask_run (w : World) :
  NlpProject.fill_mask w =
  let text := Py.strip (Tk.get (mask_text_input (app w))) in
  if Py.not_str text then
    (Normal tt, shown (ShowWarning "Warning" "Please enter text with [MASK] tokens.") w)
  else if negb (Py.contains "[MASK]" text) then
    (Normal tt,
     shown (ShowWarning "Warning" "Please include [MASK] tokens in your text.") w)
  else
    called "mask_filler" (mask_filler (app w)) text "Mask filling failed: "
      MaskResults ModernNlpApp.predictions_result w.
Proof.
  unfold NlpProject.fill_mask.
  unfold bind at 1. unfold text_get, read. cbn [get_text]. cbv zeta.
  destruct (Py.not_str _); [reflexivity|].
  destruct (negb _); [reflexivity|].
  apply (try_call_run "mask_filler" mask_filler).
Qed.

Lemma modern_generate_image_run (w : World) :
  ModernNlpApp.generate_image w =
  let prompt := Py.strip (Tk.get (image_prompt_input (app w))) in
  if Py.not_str prompt then
    (Normal tt, shown (ShowWarning "Warning" "Please enter an image prompt.") w)
  else
    (Normal tt,
     {| app := set_image_label
                 ("Generating image for: '" ++ prompt ++ "'" ++ nl ++ nl ++
                  "(Image generation placeholder)") (app w);
        trace := trace w |}).
Proof.
  unfold ModernNlpApp.generate_image, bind, text_get, read.
  cbn [get_text]. cbv zeta.
  destruct (Py.not_str _); reflexivity.
Qed.

Lemma project_generate_image_run (w : World) :
  NlpProject.generate_image w =
  let prompt := Py.strip (Tk.get (image_prompt_input (app w))) in
  if Py.not_str prompt then
    (Normal tt, shown (ShowWarning "Warning" "Please enter an image prompt.") w)
  else
    match image_gen (app w) with
    | None =>
        (Raised (Exception "'ModernNLPApp' object has no attribute 'image_gen'"), w)
    | Some None =>
        (Normal tt,
         shown (ShowInfo "Info"
                  "Image generation model not available. This would generate an image based on your prompt.")
           w)
    | Some (Some _) =>
        (Normal tt,
         {| app := set_image_label
                     ("Generating image for: '" ++ prompt ++ "'" ++ nl ++ nl ++
                      "(Image generation requires additional setup)") (app w);
            trace := trace w |})
    end.
Proof.
  cbv [NlpProject.generate_image bind text_get read raise showinfo emit try_except
       image_label_config modify shown showwarning].
  cbn [get_text]. cbv zeta.
  destruct (Py.not_str _); [reflexivity|].
  destruct (image_gen (app w)) as [[u|]|]; reflexivity.
Qed.

Lemma project_generate_image_blank (w : World) :
  Py.not_str (Py.strip (Tk.get (image_prompt_input (app w)))) = true ->
  NlpProject.generate_image w =
  (Normal tt, shown (ShowWarning "Warning" "Please enter an image prompt.") w).
Proof.
  intros H. unfold NlpProject.generate_image.
  unfold bind at 1. unfold text_get, read. cbn [get_text]. cbv zeta.
  now rewrite H.
Qed.

End Runs.

(** The two pipeline handlers on sample predictions. *)
Example extract_entities_ex :
  let found := [ {| Entity.entity_group := "PER"; Entity.word := "Greta";
                    Entity.score := 0.96875%float |};
                 {| Entity.entity_group := "LOC"; Entity.word := "Davos";
                    Entity.score := 0.5%float |} ] in
  let app0 := typed NerTextInput "Greta spoke in Davos"
                (created (Some (fun _ => inr found)) None None) in
  press ModernNlpApp.extract_entities app0 =
    (Normal tt,
     {| app := set_text NerResults
                 {| Tk.state := Tk.DISABLED;
                    Tk.content :=
                      "Extracted Entities:" ++ nl ++
                      "==================================================" ++ nl ++ nl ++
                      "1. PER: Greta" ++ nl ++ "   Confidence: 0.969" ++ nl ++ nl ++
                      "2. LOC: Davos" ++ nl ++ "   Confidence: 0.500" ++ nl ++ nl |}
                 app0;
        trace := [PipelineCall "ner" "Greta spoke in Davos"] |}).
Proof. vm_compute. reflexivity. Qed.

Example fill_mask_ex :
  let preds := [ {| MaskPrediction.sequence := "the earth is round.";
                    MaskPrediction.score := 0.25%float;
                    MaskPrediction.token_str := "round" |} ] in
  let app0 := typed MaskTextInput "The earth is [MASK]."
                (created None (Some (fun _ => inr preds)) None) in
  press NlpProject.fill_mask app0 =
    (Normal tt,
     {| app := set_text MaskResults
                 {| Tk.state := Tk.DISABLED;
                    Tk.content :=
                      "Mask Predictions:" ++ nl ++
                      "==================================================" ++ nl ++ nl ++
                      "1. the earth is round." ++ nl ++ "   Confidence: 0.250" ++ nl ++
                      "   Token: round" ++ nl ++ nl |}
                 app0;
        trace := [PipelineCall "mask_filler" "The earth is [MASK]."] |}).
Proof. vm_compute. reflexivity. Qed.

(** ** The keyword score *)

Section Score.

Lemma fold_add_ones {A} (l : list A) (acc : Z) :
  fold_left Z.add (map (fun _ => 1) l) acc = acc + Z.of_nat (length l).
Proof.
  revert acc; induction l as [|x r IH]; intros acc; simpl length; simpl fold_left.
  - lia.
  - rewrite IH. lia.
Qed.

Lemma score_length (text : string) :
  ModernNlpApp.score text = Z.of_nat (length (ModernNlpApp.detected text)).
Proof. unfold ModernNlpApp.score, Py.sum. now rewrite fold_add_ones. Qed.

Lemma keywords_NoDup : NoDup ModernNlpApp.keywords.
Proof.
  replace ModernNlpApp.keywords with (nodup string_dec ModernNlpApp.keywords)
    by (vm_compute; reflexivity).
  apply NoDup_nodup.
Qed.

Lemma detected_In (text kw : string) :
  In kw (ModernNlpApp.detected text) <->
  In kw ModernNlpApp.keywords /\ occurs kw (Py.lower text).
Proof. unfold ModernNlpApp.detected. now rewrite filter_In, contains_spec. Qed.

Lemma detected_NoDup (text : string) : NoDup (ModernNlpApp.detected text).
Proof. apply NoDup_filter, keywords_NoDup. Qed.

Lemma detected_length (text : string) :
  (length (ModernNlpApp.detected text) <= 12)%nat.
Proof. apply (filter_length_le _ ModernNlpApp.keywords). Qed.

Lemma score_bounds (text : string) : 0 <= ModernNlpApp.score text <= 12.
Proof. rewrite score_length. pose proof (detected_length text). lia. Qed.

Lemma three_distinct_length (l : list string) (k1 k2 k3 : string) :
  In k1 l -> In k2 l -> In k3 l -> k1 <> k2 -> k1 <> k3 -> k2 <> k3 ->
  (3 <= length l)%nat.
Proof.
  intros H1 H2 H3 N12 N13 N23.
  assert (D : NoDup [k1; k2; k3]).
  { repeat constructor; simpl; intuition congruence. }
  apply (NoDup_incl_length D).
  intros k [<-|[<-|[<-|[]]]]; assumption.
Qed.

Lemma confidence_of_saturated (n : Z) : 3 <= n <= 12 -> confidence_of n = 1%float.
Proof.
  intros H.
  assert (C : n = 3 \/ n = 4 \/ n = 5 \/ n = 6 \/ n = 7 \/ n = 8 \/ n = 9 \/
              n = 10 \/ n = 11 \/ n = 12) by lia.
  repeat (destruct C as [-> | C]; [vm_compute; reflexivity|]).
  subst n. vm_compute. reflexivity.
Qed.

Lemma confidence_of_printed (n : Z) :
  0 <= n <= 12 ->
  Py.format_f 2 (confidence_of n) =
  (if n =? 0 then "0.00" else if n =? 1 then "0.33"
   else if n =? 2 then "0.67" else "1.00").
Proof.
  intros H.
  assert (C : n = 0 \/ n = 1 \/ n = 2 \/ 3 <= n <= 12) by lia.
  destruct C as [-> | [-> | [-> | C]]]; try (vm_compute; reflexivity).
  rewrite (confidence_of_saturated n C).
  assert (E0 : (n =? 0) = false) by (apply Z.eqb_neq; lia).
  assert (E1 : (n =? 1) = false) by (apply Z.eqb_neq; lia).
  assert (E2 : (n =? 2) = false) by (apply Z.eqb_neq; lia).
  rewrite E0, E1, E2. vm_compute. reflexivity.
Qed.

Lemma occurs_lower (kw text : string) :
  Py.lower kw = kw -> occurs kw text -> occurs kw (Py.lower text).
Proof.
  intros L [a [b ->]]. exists (Py.lower a), (Py.lower b).
  now rewrite !lower_app, L.
Qed.

Lemma keywords_lower (kw : string) :
  In kw ModernNlpApp.keywords -> Py.lower kw = kw.
Proof.
  intros H. repeat (destruct H as [<- | H]; [reflexivity|]). destruct H.
Qed.

End Score.

(** ** Claims *)

(** C1. When the trimmed input is not empty, the score counts the
    distinct keywords of the 12-term table that are substrings of the
    lower-cased text (each once, however often it occurs), the
    confidence is [min(score / 3, 1.0)], printed to two decimals as
    0.00, 0.33, 0.67 or 1.00 for a score of 0, 1, 2 or more, the handler
    renders [result] with no message box, and three distinct keywords
    in the text give the label Environment-related with confidence 1.0,
    printed 1.00. *)
Theorem classify_counts_distinct_keywords (app0 : App) (text : string) :
  text = Py.strip (Tk.get (env_text_input app0)) ->
  text <> "" ->
  length NlpProject.keywords = 12%nat /\
  (exists found : list string,
      NoDup found /\
      (forall kw, In kw found <->
                  In kw NlpProject.keywords /\ occurs kw (Py.lower text)) /\
      NlpProject.score text = Z.of_nat (length found)) /\
  NlpProject.confidence text = Py.min (Py.truediv (NlpProject.score text) 3) 1%float /\
  Py.format_f 2 (NlpProject.confidence text) =
    (if NlpProject.score text =? 0 then "0.00"
     else if NlpProject.score text =? 1 then "0.33"
     else if NlpProject.score text =? 2 then "0.67" else "1.00") /\
  ModernNlpApp.score text = NlpProject.score text /\
  ModernNlpApp.confidence text = NlpProject.confidence text /\
  press NlpProject.classify_environment app0 =
    (Normal tt,
     {| app := set_text EnvResults
                 {| Tk.state := Tk.DISABLED; Tk.content := NlpProject.result text |} app0;
        trace := [] |}) /\
  press ModernNlpApp.classify_environment app0 =
    press NlpProject.classify_environment app0 /\
  (forall k1 k2 k3 : string,
      In k1 NlpProject.keywords -> In k2 NlpProject.keywords ->
      In k3 NlpProject.keywords ->
      k1 <> k2 -> k1 <> k3 -> k2 <> k3 ->
      occurs k1 (Py.lower text) -> occurs k2 (Py.lower text) ->
      occurs k3 (Py.lower text) ->
      NlpProject.label text = "Environment-related" /\
      NlpProject.confidence text = 1%float /\
      exists rest : string,
        NlpProject.result text =
        "Classification: Environment-related" ++ nl ++ "Confidence: 1.00" ++ nl ++ rest).
Proof.
  intros Ht Hne.
  split; [reflexivity|].
  split.
  { exists (ModernNlpApp.detected text). split; [apply detected_NoDup|].
    split; [apply detected_In | apply score_length]. }
  split; [reflexivity|].
  split; [apply (confidence_of_printed _ (score_bounds text))|].
  split; [reflexivity|]. split; [reflexivity|].
  assert (R : press ModernNlpApp.classify_environment app0 =
              (Normal tt,
               {| app := set_text EnvResults
                   {| Tk.state := Tk.DISABLED; Tk.content := NlpProject.result text |} app0;
                  trace := [] |})).
  { unfold press. rewrite modern_classify_run. cbn [app]. cbv zeta.
    rewrite <- Ht, (not_str_false _ Hne), project_result_same. reflexivity. }
  split; [unfold press; rewrite project_classify_same; exact R|].
  split; [unfold press; now rewrite project_classify_same|].
  intros k1 k2 k3 I1 I2 I3 N12 N13 N23 O1 O2 O3.
  assert (L : (3 <= length (ModernNlpApp.detected text))%nat).
  { apply (three_distinct_length _ k1 k2 k3); trivial; apply detected_In; auto. }
  assert (B : 3 <= ModernNlpApp.score text <= 12).
  { pose proof (score_bounds text). rewrite score_length in *. lia. }
  assert (C : NlpProject.confidence text = 1%float).
  { apply (confidence_of_saturated _ B). }
  assert (P : (0 <? NlpProject.score text) = true).
  { apply Z.ltb_lt. change (NlpProject.score text) with (ModernNlpApp.score text). lia. }
  split; [unfold NlpProject.label; now rewrite P|].
  split; [exact C|].
  unfold NlpProject.result, NlpProject.label. rewrite P, C.
  eexists. change (Py.format_f 2 1%float) with "1.00".
  rewrite !append_assoc. reflexivity.
Qed.

Lemma classify_counts_distinct_keywords_witness :
  "Recycle carbon, cut carbon emissions" =
    Py.strip (Tk.get (env_text_input app_recycle)) /\
  NlpProject.score "Recycle carbon, cut carbon emissions" = 3 /\
  NlpProject.label "Recycle carbon, cut carbon emissions" = "Environment-related" /\
  NlpProject.confidence "Recycle carbon, cut carbon emissions" = 1%float.
Proof.
  pose proof (classify_counts_distinct_keywords app_recycle
                "Recycle carbon, cut carbon emissions" eq_refl
                ltac:(discriminate)) as H.
  destruct H as (_ & _ & _ & _ & _ & _ & _ & _ & H).
  split; [reflexivity|]. split; [vm_compute; reflexivity|].
  destruct (H "recycle" "carbon" "emissions") as (L & C & _).
  1-3: simpl; tauto.
  1-3: discriminate.
  1-3: apply contains_spec; vm_compute; reflexivity.
  split; assumption.
Defined.

(** C2. When the trimmed input is not empty and no keyword of the table
    occurs in the lower-cased text, the score and the confidence are 0,
    the label is Not Environment-related, the reported confidence
    [1 - confidence] is exactly 1.0 (printed 1.00), no keyword is
    listed, and this text is what the handler renders. *)
Theorem classify_without_keywords (app0 : App) (text : string) :
  text = Py.strip (Tk.get (env_text_input app0)) ->
  text <> "" ->
  (forall kw, In kw NlpProject.keywords -> ~ occurs kw (Py.lower text)) ->
  NlpProject.score text = 0 /\
  NlpProject.detected text = [] /\
  NlpProject.label text = "Not Environment-related" /\
  NlpProject.confidence text = 0%float /\
  PrimFloat.sub (Py.float_of_int 1) (NlpProject.confidence text) = 1%float /\
  NlpProject.result text =
    "Classification: Not Environment-related" ++ nl ++ "Confidence: 1.00" ++ nl ++ nl ++
    "No environmental keywords detected." /\
  ModernNlpApp.result text = NlpProject.result text /\
  press NlpProject.classify_environment app0 =
    (Normal tt,
     {| app := set_text EnvResults
                 {| Tk.state := Tk.DISABLED; Tk.content := NlpProject.result text |} app0;
        trace := [] |}) /\
  press ModernNlpApp.classify_environment app0 =
    press NlpProject.classify_environment app0.
Proof.
  intros Ht Hne Hno.
  assert (D : ModernNlpApp.detected text = []).
  { destruct (ModernNlpApp.detected text) as [|kw r] eqn:E; [reflexivity|].
    assert (I : In kw (ModernNlpApp.detected text)) by (rewrite E; now left).
    apply detected_In in I. destruct I as [I O]. now destruct (Hno kw I). }
  assert (S0 : NlpProject.score text = 0).
  { change (NlpProject.score text) with (ModernNlpApp.score text).
    now rewrite score_length, D. }
  assert (C : NlpProject.confidence text = 0%float).
  { unfold NlpProject.confidence. rewrite S0. vm_compute. reflexivity. }
  assert (R : NlpProject.result text =
    "Classification: Not Environment-related" ++ nl ++ "Confidence: 1.00" ++ nl ++ nl ++
    "No environmental keywords detected.").
  { unfold NlpProject.result, NlpProject.label. rewrite S0, C. reflexivity. }
  split; [exact S0|]. split; [exact D|].
  split; [unfold NlpProject.label; now rewrite S0|].
  split; [exact C|].
  split; [rewrite C; vm_compute; reflexivity|].
  split; [exact R|].
  split; [symmetry; apply project_result_same|].
  unfold press. rewrite project_classify_same, modern_classify_run.
  cbn [app]. cbv zeta.
  rewrite <- Ht, (not_str_false _ Hne), project_result_same. split; reflexivity.
Qed.

Lemma classify_without_keywords_witness :
  "I like cats" = Py.strip (Tk.get (env_text_input app_cats)) /\
  NlpProject.score "I like cats" = 0 /\
  get_text EnvResults (app (snd (press NlpProject.classify_environment app_cats))) =
    {| Tk.state := Tk.DISABLED;
       Tk.content :=
         "Classification: Not Environment-related" ++ nl ++ "Confidence: 1.00" ++ nl ++
         nl ++ "No environmental keywords detected." |}.
Proof.
  assert (N : forall kw, In kw NlpProject.keywords -> ~ occurs kw (Py.lower "I like cats")).
  { intros kw I O. apply contains_spec in O.
    repeat (destruct I as [<- | I]; [vm_compute in O; discriminate O|]).
    destruct I. }
  pose proof (classify_without_keywords app_cats "I like cats" eq_refl
                ltac:(discriminate) N) as H.
  destruct H as (S0 & _ & _ & _ & _ & R & _ & P & _).
  split; [reflexivity|]. split; [exact S0|].
  rewrite P, R. reflexivity.
Defined.

(** C3. Rendering content A and then content B into the same region,
    whatever the region held and whatever its state was, leaves it
    holding exactly B and disabled, so that inserting into it or
    deleting from it changes nothing; nothing else of the application
    and nothing of the trace changes. *)
Theorem update_results_replaces (a : TextAttr) (A B : string) (w : World) :
  let after := {| Tk.state := Tk.DISABLED; Tk.content := B |} in
  (ModernNlpApp.update_results a A ;; ModernNlpApp.update_results a B) w =
    (Normal tt, {| app := set_text a after (app w); trace := trace w |}) /\
  (NlpProject.update_results a A ;; NlpProject.update_results a B) w =
    (Normal tt, {| app := set_text a after (app w); trace := trace w |}) /\
  get_text a (set_text a after (app w)) = after /\
  (forall s : string, Tk.insert s after = after) /\
  Tk.delete after = after.
Proof.
  cbv zeta. repeat split; destruct a; reflexivity.
Qed.

(** C4. When the pipeline raises during entity extraction or mask
    filling, the handler returns normally, the trace shows the one
    pipeline call followed by one error box carrying the message, and
    the application, result regions included, is left as it was. *)
Theorem pipeline_error_is_caught (app0 : App) (text : string) (e : Exn) :
  (forall f : Pipeline Entity.t,
      ner app0 = Some f ->
      text = Py.strip (Tk.get (ner_text_input app0)) ->
      text <> "" ->
      f text = inl e ->
      let out :=
        (Normal tt,
         {| app := app0;
            trace := [PipelineCall "ner" text;
                      ShowError "Error" ("Entity extraction failed: " ++ str_exn e)] |}) in
      press ModernNlpApp.extract_entities app0 = out /\
      press NlpProject.extract_entities app0 = out) /\
  (forall f : Pipeline MaskPrediction.t,
      mask_filler app0 = Some f ->
      text = Py.strip (Tk.get (mask_text_input app0)) ->
      text <> "" ->
      occurs "[MASK]" text ->
      f text = inl e ->
      let out :=
        (Normal tt,
         {| app := app0;
            trace := [PipelineCall "mask_filler" text;
                      ShowError "Error" ("Mask filling failed: " ++ str_exn e)] |}) in
      press ModernNlpApp.fill_mask app0 = out /\
      press NlpProject.fill_mask app0 = out).
Proof.
  split.
  - intros f Hf Ht Hne He. cbv zeta. unfold press.
    rewrite project_extract_run, modern_extract_run. cbn [app]. cbv zeta.
    rewrite <- Ht, (not_str_false _ Hne), Hf. unfold called. rewrite He.
    split; reflexivity.
  - intros f Hf Ht Hne Hm He. cbv zeta. unfold press.
    apply contains_spec in Hm.
    rewrite project_fill_mask_run, modern_fill_mask_run. cbn [app]. cbv zeta.
    rewrite <- Ht, (not_str_false _ Hne), Hm, Hf. unfold called. rewrite He.
    split; reflexivity.
Qed.

Lemma pipeline_error_is_caught_witness :
  press NlpProject.extract_entities app_ner_down =
    (Normal tt,
     {| app := app_ner_down;
        trace := [PipelineCall "ner" "Greta spoke in Davos";
                  ShowError "Error" "Entity extraction failed: CUDA out of memory"] |}) /\
  press NlpProject.fill_mask app_mask_down =
    (Normal tt,
     {| app := app_mask_down;
        trace := [PipelineCall "mask_filler" "The earth is [MASK].";
                  ShowError "Error" "Mask filling failed: CUDA out of memory"] |}).
Proof.
  split.
  - refine (proj2 (proj1 (pipeline_error_is_caught app_ner_down
              "Greta spoke in Davos" (Exception "CUDA out of memory"))
              (failing "CUDA out of memory") eq_refl eq_refl _ eq_refl)).
    discriminate.
  - refine (proj2 (proj2 (pipeline_error_is_caught app_mask_down
              "The earth is [MASK]." (Exception "CUDA out of memory"))
              (failing "CUDA out of memory") eq_refl eq_refl _ _ eq_refl)).
    + discriminate.
    + apply contains_spec. reflexivity.
Defined.

(** C5. When the input of an action is empty or whitespace only, each
    of the four commands of either file returns normally with a trace
    made of exactly one warning box (so no pipeline call) and leaves
    the application, result regions and image label included, as it
    was. *)
Theorem blank_input_only_warns (act : Action) (app0 : App) :
  blank (Tk.content (get_text (input_of act) app0)) = true ->
  press (modern_command act) app0 =
    (Normal tt,
     {| app := app0; trace := [ShowWarning "Warning" (modern_blank_warning act)] |}) /\
  press (project_command act) app0 =
    (Normal tt,
     {| app := app0; trace := [ShowWarning "Warning" (project_blank_warning act)] |}).
Proof.
  intros H. rewrite <- not_str_strip_get in H. unfold press.
  destruct act; cbn [input_of get_text modern_command project_command
                     modern_blank_warning project_blank_warning] in *.
  - rewrite project_classify_same, modern_classify_run. cbn [app]. cbv zeta.
    rewrite H. split; reflexivity.
  - rewrite modern_generate_image_run. cbn [app]. cbv zeta. rewrite H.
    split; [reflexivity|]. now apply project_generate_image_blank.
  - rewrite project_extract_run, modern_extract_run. cbn [app]. cbv zeta.
    rewrite H. split; reflexivity.
  - rewrite project_fill_mask_run, modern_fill_mask_run. cbn [app]. cbv zeta.
    rewrite H. split; reflexivity.
Qed.

Lemma blank_input_only_warns_witness :
  blank (Tk.content (get_text (input_of FillMask) app_blank)) = true /\
  press NlpProject.fill_mask app_blank =
    (Normal tt,
     {| app := app_blank;
        trace := [ShowWarning "Warning" "Please enter text with [MASK] tokens."] |}).
Proof.
  split; [reflexivity|].
  exact (proj2 (blank_input_only_warns FillMask app_blank eq_refl)).
Defined.

(** C6. When the trimmed mask-fill input is not empty but lacks the
    token [MASK], the handler of either file returns normally with a
    trace made of exactly one warning box, so without a pipeline call,
    and leaves the application as it was. *)
Theorem fill_mask_needs_placeholder (app0 : App) (text : string) :
  text = Py.strip (Tk.get (mask_text_input app0)) ->
  text <> "" ->
  ~ occurs "[MASK]" text ->
  press ModernNlpApp.fill_mask app0 =
    (Normal tt,
     {| app := app0;
        trace := [ShowWarning "Warning" "Please include [MASK] in your text."] |}) /\
  press NlpProject.fill_mask app0 =
    (Normal tt,
     {| app := app0;
        trace := [ShowWarning "Warning" "Please include [MASK] tokens in your text."] |}).
Proof.
  intros Ht Hne Hm.
  assert (C : Py.contains "[MASK]" text = false).
  { destruct (Py.contains "[MASK]" text) eqn:E; [|reflexivity].
    apply contains_spec in E. contradiction. }
  unfold press. rewrite project_fill_mask_run, modern_fill_mask_run.
  cbn [app]. cbv zeta. rewrite <- Ht, (not_str_false _ Hne), C.
  split; reflexivity.
Qed.

Lemma fill_mask_needs_placeholder_witness :
  "The earth is round." = Py.strip (Tk.get (mask_text_input app_no_mask)) /\
  press ModernNlpApp.fill_mask app_no_mask =
    (Normal tt,
     {| app := app_no_mask;
        trace := [ShowWarning "Warning" "Please include [MASK] in your text."] |}).
Proof.
  split; [reflexivity|].
  refine (proj1 (fill_mask_needs_placeholder app_no_mask "The earth is round."
                   eq_refl _ _)).
  - discriminate.
  - intros O. apply contains_spec in O. vm_compute in O. discriminate O.
Defined.

(** C7. On the input "Climate change and pollution affect biodiversity"
    the score is 3, the label is Environment-related, the confidence is
    1.0 and prints as 1.00, the detected keywords are climate,
    pollution, biodiversity in table order, and the handler of either
    file renders the block with the label, the confidence, the count
    and the keyword list. *)
Theorem classify_climate_scenario :
  let text := "Climate change and pollution affect biodiversity" in
  let block :=
    "Classification: Environment-related" ++ nl ++
    "Confidence: 1.00" ++ nl ++
    "Keywords found: 3" ++ nl ++ nl ++
    "Environmental keywords detected: climate, pollution, biodiversity" in
  let out :=
    (Normal tt,
     {| app := set_text EnvResults
                 {| Tk.state := Tk.DISABLED; Tk.content := block |} app_climate;
        trace := [] |}) in
  Py.strip (Tk.get (env_text_input app_climate)) = text /\
  NlpProject.score text = 3 /\
  NlpProject.label text = "Environment-related" /\
  NlpProject.confidence text = 1%float /\
  Py.format_f 2 (NlpProject.confidence text) = "1.00" /\
  NlpProject.detected text = ["climate"; "pollution"; "biodiversity"] /\
  NlpProject.result text = block /\
  ModernNlpApp.result text = block /\
  press NlpProject.classify_environment app_climate = out /\
  press ModernNlpApp.classify_environment app_climate = out.
Proof.
  cbv zeta. repeat split; vm_compute; reflexivity.
Qed.

(** C8. The classifier ignores case: on the lower-cased text the
    score, the label, the confidence, the detected keywords and the
    whole result are those of the text itself; trimming commutes with
    lower-casing, so the handler run on a lower-cased input ends the
    same way, with the same trace and the same result region; and
    "Climate" scores as "climate" does. *)
Theorem classify_case_insensitive (text : string) (app0 : App) :
  let run s :=
    press NlpProject.classify_environment
      (set_text EnvTextInput {| Tk.state := Tk.NORMAL; Tk.content := s |} app0) in
  NlpProject.score (Py.lower text) = NlpProject.score text /\
  ModernNlpApp.score (Py.lower text) = ModernNlpApp.score text /\
  NlpProject.label (Py.lower text) = NlpProject.label text /\
  NlpProject.confidence (Py.lower text) = NlpProject.confidence text /\
  NlpProject.detected (Py.lower text) = NlpProject.detected text /\
  NlpProject.result (Py.lower text) = NlpProject.result text /\
  ModernNlpApp.result (Py.lower text) = ModernNlpApp.result text /\
  Py.strip (Py.lower text) = Py.lower (Py.strip text) /\
  fst (run (Py.lower text)) = fst (run text) /\
  trace (snd (run (Py.lower text))) = trace (snd (run text)) /\
  env_results (app (snd (run (Py.lower text)))) = env_results (app (snd (run text))) /\
  NlpProject.score "Climate" = NlpProject.score "climate".
Proof.
  cbv zeta.
  assert (S1 : forall t, ModernNlpApp.score (Py.lower t) = ModernNlpApp.score t).
  { intros t. unfold ModernNlpApp.score. now rewrite lower_idem. }
  assert (D1 : forall t, ModernNlpApp.detected (Py.lower t) = ModernNlpApp.detected t).
  { intros t. unfold ModernNlpApp.detected. now rewrite lower_idem. }
  assert (C1 : forall t, ModernNlpApp.confidence (Py.lower t) = ModernNlpApp.confidence t).
  { intros t. unfold ModernNlpApp.confidence. now rewrite S1. }
  assert (R1 : forall t, ModernNlpApp.result (Py.lower t) = ModernNlpApp.result t).
  { intros t. unfold ModernNlpApp.result. now rewrite S1, C1, D1. }
  split; [apply S1|]. split; [apply S1|].
  split.
  { unfold NlpProject.label.
    change NlpProject.score with ModernNlpApp.score. now rewrite S1. }
  split; [apply C1|]. split; [apply D1|].
  split; [now rewrite !project_result_same|].
  split; [apply R1|].
  split; [apply strip_lower|].
  unfold press. rewrite !project_classify_same, !modern_classify_run.
  cbn [app set_text env_text_input]. cbv zeta.
  assert (G : Py.strip (Tk.get {| Tk.state := Tk.NORMAL; Tk.content := Py.lower text |}) =
              Py.lower (Py.strip (Tk.get {| Tk.state := Tk.NORMAL; Tk.content := text |}))).
  { unfold Tk.get. cbn [Tk.content].
    change nl with (Py.lower nl) at 1. now rewrite <- lower_app, strip_lower. }
  rewrite G.
  set (t := Py.strip (Tk.get {| Tk.state := Tk.NORMAL; Tk.content := text |})).
  rewrite R1.
  assert (N : Py.not_str (Py.lower t) = Py.not_str t) by now destruct t.
  rewrite N. destruct (Py.not_str t); repeat split; reflexivity.
Qed.

(** C9, as stated, fails: on an empty mask-fill input, and on one
    without the token, the two files warn with different texts. *)
Lemma fill_mask_warnings_differ :
  press ModernNlpApp.fill_mask app_blank =
    (Normal tt,
     {| app := app_blank;
        trace := [ShowWarning "Warning" "Please include [MASK] in your text."] |}) /\
  press NlpProject.fill_mask app_blank =
    (Normal tt,
     {| app := app_blank;
        trace := [ShowWarning "Warning" "Please enter text with [MASK] tokens."] |}) /\
  press ModernNlpApp.fill_mask app_blank <> press NlpProject.fill_mask app_blank /\
  press ModernNlpApp.fill_mask app_no_mask <> press NlpProject.fill_mask app_no_mask.
Proof.
  split; [reflexivity|]. split; [reflexivity|].
  split; intros H; vm_compute in H; discriminate H.
Qed.

(** C9, amended. In every world the two files' [update_results],
    [classify_environment] and [extract_entities] end the same way;
    their [fill_mask] rejects the same inputs, each time with one
    warning and nothing else, the texts of the warnings being each
    file's own, and ends the same way on every input it accepts; their
    [generate_image] warns alike on a blank prompt and otherwise
    differs: one file always writes its placeholder into the label, the
    other consults [image_gen] first. *)
Theorem files_agree_up_to_mask_warnings (w : World) :
  (forall (a : TextAttr) (c : string),
      NlpProject.update_results a c w = ModernNlpApp.update_results a c w) /\
  NlpProject.classify_environment w = ModernNlpApp.classify_environment w /\
  NlpProject.extract_entities w = ModernNlpApp.extract_entities w /\
  (let text := Py.strip (Tk.get (mask_text_input (app w))) in
  if Py.not_str text || negb (Py.contains "[MASK]" text) then
    ModernNlpApp.fill_mask w =
      (Normal tt, shown (ShowWarning "Warning" "Please include [MASK] in your text.") w) /\
    NlpProject.fill_mask w =
      (Normal tt,
       shown (ShowWarning "Warning"
                (if Py.not_str text then "Please enter text with [MASK] tokens."
                 else "Please include [MASK] tokens in your text.")) w)
  else NlpProject.fill_mask w = ModernNlpApp.fill_mask w) /\
  let prompt := Py.strip (Tk.get (image_prompt_input (app w))) in
  let label_set note :=
    (Normal tt,
     {| app := set_image_label
                 ("Generating image for: '" ++ prompt ++ "'" ++ nl ++ nl ++ note) (app w);
        trace := trace w |}) in
  if Py.not_str prompt then
    NlpProject.generate_image w = ModernNlpApp.generate_image w
  else
    ModernNlpApp.generate_image w = label_set "(Image generation placeholder)" /\
    NlpProject.generate_image w =
      match image_gen (app w) with
      | None =>
          (Raised (Exception "'ModernNLPApp' object has no attribute 'image_gen'"), w)
      | Some None =>
          (Normal tt,
           shown (ShowInfo "Info"
                    "Image generation model not available. This would generate an image based on your prompt.")
             w)
      | Some (Some _) => label_set "(Image generation requires additional setup)"
      end.
Proof.
  split; [intros a c; reflexivity|].
  split; [apply project_classify_same|].
  split; [reflexivity|].
  split.
  - cbv zeta. rewrite project_fill_mask_run, modern_fill_mask_run. cbv zeta.
    destruct (Py.not_str _); cbn [orb]; [split; reflexivity|].
    destruct (negb _); [split; reflexivity | reflexivity].
  - cbv zeta. rewrite project_generate_image_run, modern_generate_image_run. cbv zeta.
    destruct (Py.not_str _); [reflexivity | split; reflexivity].
Qed.

Lemma join_commas (l : list string) :
  Forall (fun kw => count_char "," kw = O) l -> l <> [] ->
  S (count_char "," (Py.join ", " l)) = length l.
Proof.
  induction l as [|x r IH]; intros F N; [congruence|].
  inversion F as [|? ? Fx Fr]; subst.
  destruct r as [|y r].
  - simpl. now rewrite Fx.
  - change (Py.join ", " (x :: y :: r)) with (x ++ ", " ++ Py.join ", " (y :: r)).
    rewrite !count_char_app, Fx.
    specialize (IH Fr ltac:(discriminate)).
    change (count_char "," ", ") with 1%nat. simpl length in *. lia.
Qed.

(** C10. When the score is positive, the integer printed after
    "Keywords found:" is the number of keywords joined in the list that
    follows it (one more than the number of commas in that list), and
    it lies between 1 and 12. *)
Theorem positive_output_consistent (text : string) :
  0 < NlpProject.score text ->
  NlpProject.score text = Z.of_nat (length (NlpProject.detected text)) /\
  1 <= NlpProject.score text <= 12 /\
  NlpProject.result text =
    "Classification: Environment-related" ++ nl ++
    "Confidence: " ++ Py.format_f 2 (NlpProject.confidence text) ++ nl ++
    "Keywords found: " ++ Py.str_int (Z.of_nat (length (NlpProject.detected text))) ++
    nl ++ nl ++
    "Environmental keywords detected: " ++ Py.join ", " (NlpProject.detected text) /\
  S (count_char "," (Py.join ", " (NlpProject.detected text))) =
    length (NlpProject.detected text) /\
  ModernNlpApp.result text = NlpProject.result text.
Proof.
  intros H.
  change NlpProject.score with ModernNlpApp.score in *.
  change NlpProject.detected with ModernNlpApp.detected.
  pose proof (score_bounds text) as B.
  pose proof (score_length text) as L.
  split; [exact L|]. split; [lia|].
  split.
  { rewrite project_result_same. unfold ModernNlpApp.result.
    apply Z.ltb_lt in H. rewrite H, <- L.
    rewrite !append_assoc. reflexivity. }
  split; [|symmetry; apply project_result_same].
  apply join_commas.
  - apply Forall_forall. intros kw I. apply detected_In in I. destruct I as [I _].
    repeat (destruct I as [<- | I]; [reflexivity|]). destruct I.
  - intros E. rewrite E in L. simpl in L. lia.
Qed.

Lemma positive_output_consistent_witness :
  0 < NlpProject.score "Recycle carbon, cut carbon emissions" /\
  S (count_char "," (Py.join ", " (NlpProject.detected "Recycle carbon, cut carbon emissions"))) =
    length (NlpProject.detected "Recycle carbon, cut carbon emissions").
Proof.
  split; [reflexivity|].
  exact (proj1 (proj2 (proj2 (proj2
    (positive_output_consistent "Recycle carbon, cut carbon emissions" eq_refl))))).
Defined.

(** * Beyond the claims *)

(** ** Start-up *)

Section Startup.

Import Boot.

Lemma modern_init_models_run (hub : Hub) :
  modern_init_models hub fresh =
  (Normal tt,
   {| attrs :=
        {| env_classifier :=
             match text_classification hub with inr c => Some c | inl _ => None end;
           Boot.ner :=
             match text_classification hub, ner_pipeline hub with
             | inr _, inr n => Some n
             | _, _ => None
             end;
           Boot.mask_filler :=
             match text_classification hub, ner_pipeline hub, fill_mask_pipeline hub with
             | inr _, inr _, inr m => Some m
             | _, _, _ => None
             end;
           Boot.image_gen :=
             match first_failure hub with Some _ => None | None => Some None end |};
      log :=
        Printed "Loading: Loading NLP models..." ::
        Loading "text-classification" ::
        match text_classification hub with
        | inl e => [Box (ShowError "Error" ("Failed to load models: " ++ str_exn e))]
        | inr _ =>
            Loading "ner" ::
            match ner_pipeline hub with
            | inl e => [Box (ShowError "Error" ("Failed to load models: " ++ str_exn e))]
            | inr _ =>
                Loading "fill-mask" ::
                match fill_mask_pipeline hub with
                | inl e =>
                    [Box (ShowError "Error" ("Failed to load models: " ++ str_exn e))]
                | inr _ => []
                end
            end
        end |}).
Proof.
  destruct hub as [tc np fm ti]. unfold first_failure. cbn.
  destruct tc as [e|c]; [reflexivity|].
  destruct np as [e|n]; [reflexivity|].
  destruct fm as [e|m]; reflexivity.
Qed.

Lemma project_init_models_run (hub : Hub) :
  project_init_models hub fresh =
  (Normal tt,
   {| attrs :=
        {| env_classifier :=
             match text_classification hub with inr c => Some c | inl _ => None end;
           Boot.ner :=
             match text_classification hub, ner_pipeline hub with
             | inr _, inr n => Some n
             | _, _ => None
             end;
           Boot.mask_filler :=
             match text_classification hub, ner_pipeline hub, fill_mask_pipeline hub with
             | inr _, inr _, inr m => Some m
             | _, _, _ => None
             end;
           Boot.image_gen :=
             match first_failure hub with
             | Some _ => None
             | None =>
                 Some (match text_to_image hub with inr g => Some g | inl _ => None end)
             end |};
      log :=
        Printed "Loading: Loading NLP models..." ::
        Loading "text-classification" ::
        match text_classification hub with
        | inl e => [Box (ShowError "Error" ("Failed to load models: " ++ str_exn e))]
        | inr _ =>
            Loading "ner" ::
            match ner_pipeline hub with
            | inl e => [Box (ShowError "Error" ("Failed to load models: " ++ str_exn e))]
            | inr _ =>
                Loading "fill-mask" ::
                match fill_mask_pipeline hub with
                | inl e =>
                    [Box (ShowError "Error" ("Failed to load models: " ++ str_exn e))]
                | inr _ => [Loading "text-to-image"]
                end
            end
        end |}).
Proof.
  destruct hub as [tc np fm ti]. unfold first_failure. cbn.
  destruct tc as [e|c]; [reflexivity|].
  destruct np as [e|n]; [reflexivity|].
  destruct fm as [e|m]; [reflexivity|].
  destruct ti as [e|g]; reflexivity.
Qed.

End Startup.

(** X1. Whatever the loads do, [init_models] of either file returns
    normally, prints its loading line first, and shows one error box,
    carrying the message of the first language pipeline that failed to
    load, or no box when the three of them load: a failing image
    pipeline is never reported. The first file never asks for an image
    pipeline. *)
Theorem init_models_reports_first_failure (hub : Boot.Hub) :
  let expected :=
    match Boot.first_failure hub with
    | Some e => [ShowError "Error" ("Failed to load models: " ++ str_exn e)]
    | None => []
    end in
  exists s1 s2 : Boot.State,
    Boot.modern_init_models hub Boot.fresh = (Normal tt, s1) /\
    Boot.project_init_models hub Boot.fresh = (Normal tt, s2) /\
    Boot.boxes (Boot.log s1) = expected /\
    Boot.boxes (Boot.log s2) = expected /\
    hd_error (Boot.log s1) = Some (Boot.Printed "Loading: Loading NLP models...") /\
    hd_error (Boot.log s2) = Some (Boot.Printed "Loading: Loading NLP models...") /\
    ~ In "text-to-image" (Boot.loads (Boot.log s1)).
Proof.
  cbv zeta. eexists. eexists.
  split; [apply modern_init_models_run|].
  split; [apply project_init_models_run|].
  destruct hub as [tc np fm ti]. unfold Boot.first_failure. cbn.
  destruct tc as [e|c]; [|destruct np as [e|n]; [|destruct fm as [e|m]]];
    cbn; repeat split; try reflexivity;
    intros H; repeat (destruct H as [H|H]; [discriminate H|]); destruct H.
Qed.

Lemma init_models_reports_first_failure_witness :
  exists s1 s2 : Boot.State,
    Boot.modern_init_models hub_mask_down Boot.fresh = (Normal tt, s1) /\
    Boot.project_init_models hub_mask_down Boot.fresh = (Normal tt, s2) /\
    Boot.boxes (Boot.log s1) =
      [ShowError "Error" "Failed to load models: connection refused"] /\
    Boot.boxes (Boot.log s2) =
      [ShowError "Error" "Failed to load models: connection refused"] /\
    hd_error (Boot.log s1) = Some (Boot.Printed "Loading: Loading NLP models...") /\
    hd_error (Boot.log s2) = Some (Boot.Printed "Loading: Loading NLP models...") /\
    ~ In "text-to-image" (Boot.loads (Boot.log s1)).
Proof. exact (init_models_reports_first_failure hub_mask_down). Defined.

(** X2. [__init__] always yields an application. When one of the three
    language pipelines fails to load, both files yield the same one,
    with [mask_filler] and [image_gen] unassigned and [ner] assigned
    only if it loaded before the failure, and the loads after the
    failing one are not attempted. When the three load, [ner] and
    [mask_filler] are the loaded pipelines and [image_gen] is None in
    the first file, the image pipeline or None in the second. *)
Theorem init_assigns_what_loaded (hub : Boot.Hub) :
  exists (app1 app2 : App) (l1 l2 : list Boot.Step),
    Boot.init Boot.modern_init_models hub = (Normal app1, l1) /\
    Boot.init Boot.project_init_models hub = (Normal app2, l2) /\
    match Boot.first_failure hub with
    | Some _ =>
        app1 = app2 /\ l1 = l2 /\
        mask_filler app1 = None /\ image_gen app1 = None /\
        ner app1 =
          match Boot.text_classification hub, Boot.ner_pipeline hub with
          | inr _, inr n => Some n
          | _, _ => None
          end /\
        Boot.loads l1 =
          match Boot.text_classification hub, Boot.ner_pipeline hub with
          | inl _, _ => ["text-classification"]
          | inr _, inl _ => ["text-classification"; "ner"]
          | inr _, inr _ => ["text-classification"; "ner"; "fill-mask"]
          end
    | None =>
        exists n m,
          Boot.ner_pipeline hub = inr n /\ Boot.fill_mask_pipeline hub = inr m /\
          app1 = created (Some n) (Some m) (Some None) /\
          app2 = created (Some n) (Some m)
                   (Some (match Boot.text_to_image hub with
                          | inr g => Some g
                          | inl _ => None
                          end)) /\
          Boot.loads l1 = ["text-classification"; "ner"; "fill-mask"] /\
          Boot.loads l2 = ["text-classification"; "ner"; "fill-mask"; "text-to-image"]
    end.
Proof.
  unfold Boot.init.
  rewrite modern_init_models_run, project_init_models_run.
  do 4 eexists. split; [reflexivity|]. split; [reflexivity|].
  destruct hub as [tc np fm ti]. unfold Boot.first_failure. cbn.
  destruct tc as [e|c]; [repeat split|].
  destruct np as [e|n]; [repeat split|].
  destruct fm as [e|m]; [repeat split|].
  exists n, m. repeat split.
Qed.

(** ** What one command can do *)

Section Commands.

Lemma callable_ner (w : World) (f : Pipeline Entity.t) :
  ner (app w) = Some f -> callable ExtractEntities "ner" w.
Proof. intros H. left. rewrite H. repeat split; discriminate. Qed.

Lemma callable_mask (w : World) (f : Pipeline MaskPrediction.t) :
  mask_filler (app w) = Some f -> callable FillMask "mask_filler" w.
Proof. intros H. right. rewrite H. repeat split; discriminate. Qed.

Lemma called_effect_ner (w : World) (text : string) :
  effect ExtractEntities w
    (snd (called "ner" (ner (app w)) text "Entity extraction failed: "
            NerResults ModernNlpApp.entities_result w)).
Proof.
  unfold called. destruct (ner (app w)) as [f|] eqn:E.
  - destruct (f text); cbn [snd].
    + apply effect_call_box; [apply (callable_ner w f E) | reflexivity].
    + apply effect_call_render; [apply (callable_ner w f E) | reflexivity].
  - apply effect_box. reflexivity.
Qed.

Lemma called_effect_mask (w : World) (text : string) :
  effect FillMask w
    (snd (called "mask_filler" (mask_filler (app w)) text "Mask filling failed: "
            MaskResults ModernNlpApp.predictions_result w)).
Proof.
  unfold called. destruct (mask_filler (app w)) as [f|] eqn:E.
  - destruct (f text); cbn [snd].
    + apply effect_call_box; [apply (callable_mask w f E) | reflexivity].
    + apply effect_call_render; [apply (callable_mask w f E) | reflexivity].
  - apply effect_box. reflexivity.
Qed.

Lemma modern_effect (act : Action) (w : World) :
  effect act w (snd (modern_command act w)).
Proof.
  destruct act; cbn [modern_command].
  - rewrite modern_classify_run. cbv zeta. destruct (Py.not_str _); cbn [snd].
    + now apply effect_box.
    + now apply effect_render.
  - rewrite modern_generate_image_run. cbv zeta. destruct (Py.not_str _); cbn [snd].
    + now apply effect_box.
    + now apply effect_label.
  - rewrite modern_extract_run. cbv zeta. destruct (Py.not_str _).
    + now apply effect_box.
    + apply called_effect_ner.
  - rewrite modern_fill_mask_run. cbv zeta. destruct (Py.not_str _ || negb _).
    + now apply effect_box.
    + apply called_effect_mask.
Qed.

Lemma project_effect (act : Action) (w : World) :
  effect act w (snd (project_command act w)).
Proof.
  destruct act; cbn [project_command].
  - rewrite project_classify_same. apply (modern_effect Classify).
  - rewrite project_generate_image_run. cbv zeta. destruct (Py.not_str _); cbn [snd].
    + now apply effect_box.
    + destruct (image_gen (app w)) as [[u|]|]; cbn [snd].
      * now apply effect_label.
      * now apply effect_box.
      * now apply effect_raise.
  - apply (modern_effect ExtractEntities).
  - rewrite project_fill_mask_run. cbv zeta. destruct (Py.not_str _).
    + now apply effect_box.
    + destruct (negb _); [now apply effect_box | apply called_effect_mask].
Qed.

Lemma effect_handles (act : Action) (w w' : World) :
  effect act w w' ->
  ner (app w') = ner (app w) /\
  mask_filler (app w') = mask_filler (app w) /\
  image_gen (app w') = image_gen (app w).
Proof.
  intros E. destruct E as [| |a c| attr t a c| |]; try (repeat split; reflexivity);
    destruct a; repeat split; reflexivity.
Qed.

Lemma effect_frame (act : Action) (w w' : World) (a : TextAttr) :
  effect act w w' -> region_of act <> Some a ->
  get_text a (app w') = get_text a (app w).
Proof.
  intros E N. destruct E as [| |b c H R| attr t b c H R| |]; try reflexivity;
    rewrite R in N; destruct b, a; try reflexivity; congruence.
Qed.

Lemma effect_label_kept (act : Action) (w w' : World) :
  effect act w w' -> act <> GenerateImage ->
  image_label (app w') = image_label (app w).
Proof.
  intros E N. destruct E as [| |a c| attr t a c| |]; try reflexivity;
    try congruence; destruct a; reflexivity.
Qed.

Lemma effect_region_state (act : Action) (w w' : World) (a : TextAttr) :
  effect act w w' -> region_of act = Some a ->
  Tk.state (get_text a (app w')) = Tk.DISABLED \/
  get_text a (app w') = get_text a (app w).
Proof.
  intros E R. destruct E as [| |b c H Rb| attr t b c H Rb| |]; try (right; reflexivity);
    left; rewrite Rb in R; injection R as <-; destruct b; reflexivity.
Qed.

Lemma effect_trace (act : Action) (w w' : World) :
  effect act w w' ->
  exists new : list Event,
    trace w' = (trace w ++ new)%list /\
    (length (filter is_box new) <= 1)%nat /\
    (length (filter is_call new) <= 1)%nat /\
    (forall attr t, In (PipelineCall attr t) new -> callable act attr w).
Proof.
  intros E. destruct E as [|e B|a c| attr t a c C R| attr t e C B|].
  - exists []. rewrite app_nil_r. cbn. repeat split; auto. intros ? ? [].
  - exists [e]. cbn. rewrite B. destruct e; cbn; repeat split; auto;
      try discriminate B; intros ? ? [H|[]]; discriminate H.
  - exists []. cbn. rewrite app_nil_r. repeat split; auto. intros ? ? [].
  - exists [PipelineCall attr t]. cbn. repeat split; auto.
    intros ? ? [H|[]]. injection H as <- <-. exact C.
  - exists [PipelineCall attr t; e]. cbn. rewrite <- app_assoc. cbn. rewrite B.
    destruct e; try discriminate B; cbn; repeat split; auto;
      intros ? ? [H|[H|[]]]; try discriminate H; injection H as <- <-; exact C.
  - exists []. cbn. rewrite app_nil_r. repeat split; auto. intros ? ? [].
Qed.

End Commands.

(** X3. A command of either file changes no Text widget but its own
    result region, never changes a pipeline attribute, and, unless it
    is the image command, leaves the image label alone. *)
Theorem commands_touch_only_their_region (act : Action) (w w' : World) (a : TextAttr) :
  region_of act <> Some a ->
  w' = snd (modern_command act w) \/ w' = snd (project_command act w) ->
  get_text a (app w') = get_text a (app w) /\
  ner (app w') = ner (app w) /\
  mask_filler (app w') = mask_filler (app w) /\
  image_gen (app w') = image_gen (app w) /\
  (act <> GenerateImage -> image_label (app w') = image_label (app w)).
Proof.
  intros N H.
  assert (E : effect act w w').
  { destruct H as [-> | ->]; [apply modern_effect | apply project_effect]. }
  split; [apply (effect_frame act w w' a E N)|].
  destruct (effect_handles act w w' E) as (Hn & Hm & Hg).
  repeat split; trivial. apply (effect_label_kept act w w' E).
Qed.

Lemma commands_touch_only_their_region_witness :
  get_text NerResults
    (app (snd (modern_command Classify {| app := app_three; trace := [] |}))) =
  get_text NerResults app_three.
Proof.
  refine (proj1 (commands_touch_only_their_region Classify
                   {| app := app_three; trace := [] |} _ NerResults _ (or_introl eq_refl))).
  discriminate.
Defined.

(** X4. A command of either file keeps the trace it finds and appends
    at most one message box and at most one pipeline call; a call it
    appends is to the pipeline of that very command ([ner] for entity
    extraction, [mask_filler] for mask filling), and that attribute is
    assigned. *)
Theorem command_appends_one_box_one_call (act : Action) (w : World) :
  forall w' : World,
    w' = snd (modern_command act w) \/ w' = snd (project_command act w) ->
    exists new : list Event,
      trace w' = (trace w ++ new)%list /\
      (length (filter is_box new) <= 1)%nat /\
      (length (filter is_call new) <= 1)%nat /\
      (forall attr t, In (PipelineCall attr t) new -> callable act attr w).
Proof.
  intros w' H. apply effect_trace.
  destruct H as [-> | ->]; [apply modern_effect | apply project_effect].
Qed.

Lemma command_appends_one_box_one_call_witness :
  exists new : list Event,
    trace (snd (project_command FillMask {| app := app_three; trace := [] |})) =
      ([] ++ new)%list /\
    (length (filter is_box new) <= 1)%nat /\
    (length (filter is_call new) <= 1)%nat /\
    (forall attr t, In (PipelineCall attr t) new ->
                    callable FillMask attr {| app := app_three; trace := [] |}).
Proof.
  exact (command_appends_one_box_one_call FillMask {| app := app_three; trace := [] |}
           _ (or_intror eq_refl)).
Defined.

(** ** The text a pipeline receives *)

Section Trimmed.

Lemma rstrip_idem (s : string) : Py.rstrip (Py.rstrip s) = Py.rstrip s.
Proof.
  induction s as [|c r IH]; [reflexivity|].
  cbn [Py.rstrip]. destruct (Py.rstrip r) as [|d t] eqn:E.
  - destruct (Py.isspace c) eqn:S; [reflexivity|]. cbn. now rewrite S.
  - cbn [Py.rstrip] in *. now rewrite IH.
Qed.

Lemma rstrip_head (c : ascii) (r : string) :
  Py.isspace c = false -> exists t, Py.rstrip (String c r) = String c t.
Proof.
  intros S. cbn [Py.rstrip]. destruct (Py.rstrip r) as [|d t].
  - rewrite S. now exists "".
  - now exists (String d t).
Qed.

Lemma lstrip_head (s : string) :
  Py.lstrip s = "" \/ exists c r, Py.lstrip s = String c r /\ Py.isspace c = false.
Proof.
  induction s as [|c r IH]; [now left|].
  cbn [Py.lstrip]. destruct (Py.isspace c) eqn:S; [exact IH|].
  right. now exists c, r.
Qed.

(** Trimming twice trims once. *)
Lemma strip_idem (s : string) : Py.strip (Py.strip s) = Py.strip s.
Proof.
  unfold Py.strip. destruct (lstrip_head s) as [E | (c & r & E & S)]; rewrite E.
  - reflexivity.
  - destruct (rstrip_head c r S) as [t Et]. rewrite Et.
    cbn [Py.lstrip]. rewrite S, <- Et. apply rstrip_idem.
Qed.

Lemma called_calls {A} (attr : string) (p : option (Pipeline A)) (text what : string)
    (region : TextAttr) (fmt : list A -> string) (app0 : App) (attr' t : string) :
  In (PipelineCall attr' t)
     (trace (snd (called attr p text what region fmt {| app := app0; trace := [] |}))) ->
  attr' = attr /\ t = text.
Proof.
  unfold called. destruct p as [f|].
  - destruct (f text); cbn; intros [H|H].
    + injection H as -> ->. now split.
    + destruct H as [H|[]]. discriminate H.
    + injection H as -> ->. now split.
    + destruct H.
  - cbn. intros [H|[]]. discriminate H.
Qed.

End Trimmed.

(** X5. A pipeline call made by a button press of either file carries
    the text of that command's input widget with the surrounding
    whitespace removed; this text is not empty, has no whitespace left
    to trim, and for the mask filler contains the token [MASK]. *)
Theorem pipeline_called_on_trimmed_text (act : Action) (app0 : App) (attr t : string) :
  In (PipelineCall attr t) (trace (snd (press (modern_command act) app0))) \/
  In (PipelineCall attr t) (trace (snd (press (project_command act) app0))) ->
  t = Py.strip (Tk.get (get_text (input_of act) app0)) /\
  t <> "" /\
  Py.strip t = t /\
  (attr = "mask_filler" -> occurs "[MASK]" t).
Proof.
  unfold press.
  assert (NE : forall s, Py.not_str s = false -> s <> "").
  { intros s H ->. discriminate H. }
  intros H. destruct act; cbn [modern_command project_command input_of get_text] in *.
  - exfalso. rewrite project_classify_same, modern_classify_run in H.
    cbv zeta in H. cbn [app] in H.
    destruct (Py.not_str _); cbn in H; intuition discriminate.
  - exfalso. rewrite project_generate_image_run, modern_generate_image_run in H.
    cbv zeta in H. cbn [app] in H.
    destruct (Py.not_str _); [cbn in H; intuition discriminate|].
    destruct (image_gen app0) as [[u|]|]; cbn in H; intuition discriminate.
  - assert (H' : In (PipelineCall attr t)
                   (trace (snd (ModernNlpApp.extract_entities
                                  {| app := app0; trace := [] |})))) by now destruct H.
    clear H. rewrite modern_extract_run in H'. cbv zeta in H'. cbn [app] in H'.
    destruct (Py.not_str _) eqn:E; [cbn in H'; intuition discriminate|].
    apply called_calls in H'. destruct H' as [-> ->].
    split; [reflexivity|]. split; [apply NE, E|].
    split; [apply strip_idem | discriminate].
  - rewrite project_fill_mask_run, modern_fill_mask_run in H.
    cbv zeta in H. cbn [app] in H.
    destruct (Py.not_str _) eqn:E; [cbn in H; intuition discriminate|].
    cbn [orb] in H.
    destruct (Py.contains "[MASK]" _) eqn:C; cbn [negb] in H;
      [|cbn in H; intuition discriminate].
    assert (H' : attr = "mask_filler" /\
                 t = Py.strip (Tk.get (mask_text_input app0))).
    { destruct H as [H|H]; apply called_calls in H; exact H. }
    destruct H' as [-> ->].
    split; [reflexivity|]. split; [apply NE, E|].
    split; [apply strip_idem|]. intros _. now apply contains_spec.
Qed.

Lemma pipeline_called_on_trimmed_text_witness :
  "Greta spoke in Davos" = Py.strip (Tk.get (get_text (input_of ExtractEntities)
                                                app_ner_down)).
Proof.
  refine (proj1 (pipeline_called_on_trimmed_text ExtractEntities app_ner_down
                   "ner" "Greta spoke in Davos" _)).
  left. vm_compute. left. reflexivity.
Defined.

Ltac normal_cases :=
  repeat split; try reflexivity; intros ? H; first [discriminate H | reflexivity].

(** X6. In every world the four commands of the first file and the
    classify, extract and mask commands of the second return normally;
    the image command of the second returns normally unless the prompt
    is not blank and [image_gen] was never assigned, in which case it
    lets an AttributeError out and changes nothing. *)
Theorem commands_return_normally (act : Action) (w : World) :
  fst (modern_command act w) = Normal tt /\
  fst (project_command act w) =
    match act, Py.not_str (Py.strip (Tk.get (image_prompt_input (app w)))),
          image_gen (app w) with
    | GenerateImage, false, None =>
        Raised (Exception "'ModernNLPApp' object has no attribute 'image_gen'")
    | _, _, _ => Normal tt
    end /\
  (forall e : Exn,
      fst (project_command act w) = Raised e -> snd (project_command act w) = w).
Proof.
  assert (C : forall {A} attr (p : option (Pipeline A)) text what region fmt w0,
             fst (called attr p text what region fmt w0) = Normal tt).
  { intros A attr p text what region fmt w0. unfold called.
    destruct p as [f|]; [destruct (f text)|]; reflexivity. }
  destruct act; cbn [modern_command project_command]; cbv iota.
  - rewrite project_classify_same, modern_classify_run. cbv zeta.
    destruct (Py.not_str _); normal_cases.
  - rewrite project_generate_image_run, modern_generate_image_run. cbv zeta.
    destruct (Py.not_str _); [normal_cases|].
    destruct (image_gen (app w)) as [[u|]|]; normal_cases.
  - rewrite project_extract_run, modern_extract_run. cbv zeta.
    destruct (Py.not_str _); [normal_cases|].
    rewrite !C. normal_cases.
  - rewrite project_fill_mask_run, modern_fill_mask_run. cbv zeta.
    destruct (Py.not_str _); cbn [orb]; [normal_cases|].
    destruct (negb _); [normal_cases|].
    rewrite !C. normal_cases.
Qed.

Lemma commands_return_normally_witness :
  snd (project_command GenerateImage
         {| app := typed ImagePromptInput "a green forest" (created None None None);
            trace := [] |}) =
  {| app := typed ImagePromptInput "a green forest" (created None None None);
     trace := [] |}.
Proof.
  refine (proj2 (proj2 (commands_return_normally GenerateImage _)) _ _).
  reflexivity.
Defined.

(** X7. When the pipeline returns its predictions, entity extraction
    and mask filling of either file call it once, show no box, and
    leave their result region disabled and holding the formatted
    predictions, whatever it held before. *)
Theorem pipeline_result_is_rendered (app0 : App) (text : string) :
  (forall (f : Pipeline Entity.t) (entities : list Entity.t),
      ner app0 = Some f ->
      text = Py.strip (Tk.get (ner_text_input app0)) ->
      text <> "" ->
      f text = inr entities ->
      let out :=
        (Normal tt,
         {| app := set_text NerResults
                     {| Tk.state := Tk.DISABLED;
                        Tk.content := ModernNlpApp.entities_result entities |} app0;
            trace := [PipelineCall "ner" text] |}) in
      press ModernNlpApp.extract_entities app0 = out /\
      press NlpProject.extract_entities app0 = out) /\
  (forall (f : Pipeline MaskPrediction.t) (predictions : list MaskPrediction.t),
      mask_filler app0 = Some f ->
      text = Py.strip (Tk.get (mask_text_input app0)) ->
      text <> "" ->
      occurs "[MASK]" text ->
      f text = inr predictions ->
      let out :=
        (Normal tt,
         {| app := set_text MaskResults
                     {| Tk.state := Tk.DISABLED;
                        Tk.content := ModernNlpApp.predictions_result predictions |} app0;
            trace := [PipelineCall "mask_filler" text] |}) in
      press ModernNlpApp.fill_mask app0 = out /\
      press NlpProject.fill_mask app0 = out).
Proof.
  split.
  - intros f r Hf Ht Hne He. cbv zeta. unfold press.
    rewrite project_extract_run, modern_extract_run. cbn [app]. cbv zeta.
    rewrite <- Ht, (not_str_false _ Hne), Hf. unfold called. rewrite He.
    split; reflexivity.
  - intros f r Hf Ht Hne Hm He. cbv zeta. unfold press.
    apply contains_spec in Hm.
    rewrite project_fill_mask_run, modern_fill_mask_run. cbn [app]. cbv zeta.
    rewrite <- Ht, (not_str_false _ Hne), Hm, Hf. unfold called. rewrite He.
    split; reflexivity.
Qed.

Lemma pipeline_result_is_rendered_witness :
  press NlpProject.extract_entities
    (typed NerTextInput " Greta " (created (Some (fun _ => inr [])) None None)) =
  (Normal tt,
   {| app := set_text NerResults
               {| Tk.state := Tk.DISABLED;
                  Tk.content := "No named entities found in the text." |}
               (typed NerTextInput " Greta " (created (Some (fun _ => inr [])) None None));
      trace := [PipelineCall "ner" "Greta"] |}).
Proof.
  refine (proj2 (proj1 (pipeline_result_is_rendered
            (typed NerTextInput " Greta " (created (Some (fun _ => inr [])) None None))
            "Greta") (fun _ => inr []) [] eq_refl eq_refl _ eq_refl)).
  discriminate.
Defined.

(** X8. When [init_models] never assigned the pipeline attribute,
    entity extraction and mask filling of either file, on an input
    they accept, make no call, show one error box that names the
    missing attribute, and leave the application as it was. *)
Theorem unassigned_pipeline_fails_at_call (app0 : App) (text : string) :
  (ner app0 = None ->
   text = Py.strip (Tk.get (ner_text_input app0)) ->
   text <> "" ->
   let out :=
     (Normal tt,
      {| app := app0;
         trace := [ShowError "Error"
                     "Entity extraction failed: 'ModernNLPApp' object has no attribute 'ner'"]
      |}) in
   press ModernNlpApp.extract_entities app0 = out /\
   press NlpProject.extract_entities app0 = out) /\
  (mask_filler app0 = None ->
   text = Py.strip (Tk.get (mask_text_input app0)) ->
   text <> "" ->
   occurs "[MASK]" text ->
   let out :=
     (Normal tt,
      {| app := app0;
         trace := [ShowError "Error"
                     "Mask filling failed: 'ModernNLPApp' object has no attribute 'mask_filler'"]
      |}) in
   press ModernNlpApp.fill_mask app0 = out /\
   press NlpProject.fill_mask app0 = out).
Proof.
  split.
  - intros Hf Ht Hne. cbv zeta. unfold press.
    rewrite project_extract_run, modern_extract_run. cbn [app]. cbv zeta.
    rewrite <- Ht, (not_str_false _ Hne), Hf. split; reflexivity.
  - intros Hf Ht Hne Hm. cbv zeta. unfold press.
    apply contains_spec in Hm.
    rewrite project_fill_mask_run, modern_fill_mask_run. cbn [app]. cbv zeta.
    rewrite <- Ht, (not_str_false _ Hne), Hm, Hf. split; reflexivity.
Qed.

Lemma unassigned_pipeline_fails_at_call_witness :
  press ModernNlpApp.fill_mask app_three =
  (Normal tt,
   {| app := app_three;
      trace := [ShowError "Error"
                  "Mask filling failed: 'ModernNLPApp' object has no attribute 'mask_filler'"]
   |}).
Proof.
  refine (proj1 (proj2 (unassigned_pipeline_fails_at_call app_three "The [MASK] is warm.")
                   eq_refl eq_refl _ _)).
  - discriminate.
  - apply contains_spec. reflexivity.
Defined.

(** ** More on the keyword score *)

Section ScoreMore.

Lemma occurs_trans (kw m s : string) : occurs kw m -> occurs m s -> occurs kw s.
Proof.
  intros (a & b & ->) (c & d & ->).
  exists (c ++ a), (b ++ d). now rewrite !append_assoc.
Qed.

Lemma occurs_lower_mono (t t' : string) :
  occurs t t' -> occurs (Py.lower t) (Py.lower t').
Proof.
  intros (a & b & ->). exists (Py.lower a), (Py.lower b). now rewrite !lower_app.
Qed.

Lemma filter_length_mono {A} (f g : A -> bool) (l : list A) :
  (forall x, In x l -> f x = true -> g x = true) ->
  (length (filter f l) <= length (filter g l))%nat.
Proof.
  induction l as [|x r IH]; intros H; [apply le_n|].
  cbn [filter]. assert (IH' := IH (fun y I => H y (or_intror I))).
  destruct (f x) eqn:F.
  - rewrite (H x (or_introl eq_refl) F). cbn [length]. lia.
  - destruct (g x); cbn [length]; lia.
Qed.

Lemma filter_subseq {A} (f : A -> bool) (l : list A) : subseq (filter f l) l.
Proof.
  induction l as [|x r IH]; [constructor|].
  cbn [filter]. destruct (f x); now constructor.
Qed.

Lemma label_positive (text : string) :
  NlpProject.label text =
  if 0 <? ModernNlpApp.score text then "Environment-related"
  else "Not Environment-related".
Proof. reflexivity. Qed.

Lemma score_positive (text : string) :
  0 < ModernNlpApp.score text <->
  exists kw, In kw ModernNlpApp.keywords /\ occurs kw (Py.lower text).
Proof.
  rewrite score_length. split.
  - intros H. destruct (ModernNlpApp.detected text) as [|kw r] eqn:E;
      [cbn in H; lia|].
    exists kw. apply detected_In. rewrite E. now left.
  - intros (kw & I & O).
    assert (D : In kw (ModernNlpApp.detected text)) by now apply detected_In.
    destruct (ModernNlpApp.detected text); [destruct D | cbn [length]; lia].
Qed.

End ScoreMore.

(** X9. Whatever the text, it is labelled Environment-related exactly
    when at least one keyword of the table is a substring of its
    lower-casing, and Not Environment-related otherwise; a keyword
    inside a longer word counts. *)
Theorem label_iff_some_keyword (text : string) :
  (NlpProject.label text = "Environment-related" <->
   exists kw, In kw NlpProject.keywords /\ occurs kw (Py.lower text)) /\
  (NlpProject.label text = "Not Environment-related" <->
   forall kw, In kw NlpProject.keywords -> ~ occurs kw (Py.lower text)) /\
  (forall kw a b, In kw NlpProject.keywords ->
                  NlpProject.label (a ++ kw ++ b) = "Environment-related").
Proof.
  assert (P : NlpProject.label text = "Environment-related" <->
              exists kw, In kw NlpProject.keywords /\ occurs kw (Py.lower text)).
  { rewrite label_positive. change NlpProject.keywords with ModernNlpApp.keywords.
    rewrite <- score_positive.
    destruct (0 <? ModernNlpApp.score text) eqn:E.
    - apply Z.ltb_lt in E. tauto.
    - apply Z.ltb_ge in E. split; [discriminate | lia]. }
  split; [exact P|]. split.
  - rewrite label_positive in *.
    destruct (0 <? ModernNlpApp.score text) eqn:E.
    + split; [discriminate|]. intros H.
      destruct (proj1 P eq_refl) as (kw & I & O). now destruct (H kw I).
    + split; [|reflexivity]. intros _ kw I O.
      assert (Q : "Not Environment-related" = "Environment-related")
        by (apply P; now exists kw).
      discriminate Q.
  - intros kw a b I. rewrite label_positive.
    assert (S : 0 < ModernNlpApp.score (a ++ kw ++ b)).
    { apply score_positive. exists kw. split; [exact I|].
      apply occurs_lower; [now apply keywords_lower | now exists a, b]. }
    apply Z.ltb_lt in S. now rewrite S.
Qed.

Lemma label_iff_some_keyword_witness :
  NlpProject.label "Unearthly" = "Environment-related".
Proof.
  refine (proj2 (proj2 (label_iff_some_keyword "")) "earth" "Un" "ly" _).
  simpl. tauto.
Defined.

(** X10. A text that contains another one scores at least as much:
    every keyword detected in the inner text is detected in the outer
    one, so adding text around an input never turns an
    Environment-related label into the other one. *)
Theorem score_monotone (inner outer : string) :
  occurs inner outer ->
  NlpProject.score inner <= NlpProject.score outer /\
  incl (NlpProject.detected inner) (NlpProject.detected outer) /\
  (NlpProject.label inner = "Environment-related" ->
   NlpProject.label outer = "Environment-related").
Proof.
  intros H. apply occurs_lower_mono in H.
  assert (M : forall kw, occurs kw (Py.lower inner) -> occurs kw (Py.lower outer)).
  { intros kw O. exact (occurs_trans _ _ _ O H). }
  change NlpProject.score with ModernNlpApp.score.
  change NlpProject.detected with ModernNlpApp.detected.
  split; [|split].
  - rewrite !score_length. apply Nat2Z.inj_le.
    apply filter_length_mono. intros kw _ C.
    apply contains_spec. apply M. now apply contains_spec.
  - intros kw I. apply detected_In in I. apply detected_In.
    split; [tauto | apply M; tauto].
  - rewrite !label_positive.
    destruct (0 <? ModernNlpApp.score inner) eqn:E; [|discriminate].
    intros _. apply Z.ltb_lt in E.
    assert (S : 0 < ModernNlpApp.score outer).
    { apply score_positive. apply score_positive in E.
      destruct E as (kw & I & O). exists kw. split; [exact I | now apply M]. }
    apply Z.ltb_lt in S. now rewrite S.
Qed.

Lemma score_monotone_witness :
  NlpProject.score "carbon" <= NlpProject.score "Low-carbon and renewable".
Proof.
  refine (proj1 (score_monotone "carbon" "Low-carbon and renewable" _)).
  now exists "Low-", " and renewable".
Defined.

(** X11. Whatever the text, the keywords listed in the result are a
    selection from the keyword table in the table's order, without
    repetition, and each of them does occur in the lower-cased text. *)
Theorem detected_in_table_order (text : string) :
  subseq (NlpProject.detected text) NlpProject.keywords /\
  subseq (ModernNlpApp.detected text) ModernNlpApp.keywords /\
  NoDup (NlpProject.detected text) /\
  ModernNlpApp.detected text = NlpProject.detected text /\
  Forall (fun kw => occurs kw (Py.lower text)) (NlpProject.detected text).
Proof.
  split; [apply filter_subseq|]. split; [apply filter_subseq|].
  split; [apply detected_NoDup|]. split; [reflexivity|].
  apply Forall_forall. intros kw I. now apply detected_In in I.
Qed.

(** X12. Whatever the text, the confidence is a number from 0.0 to
    1.0; it is 0.0 exactly when no keyword matched and 1.0 exactly
    when three or more did. *)
Theorem confidence_range (text : string) :
  PrimFloat.leb 0%float (NlpProject.confidence text) = true /\
  PrimFloat.leb (NlpProject.confidence text) 1%float = true /\
  (NlpProject.confidence text = 0%float <-> NlpProject.score text = 0) /\
  (NlpProject.confidence text = 1%float <-> 3 <= NlpProject.score text) /\
  ModernNlpApp.confidence text = NlpProject.confidence text.
Proof.
  change (NlpProject.confidence text) with (confidence_of (ModernNlpApp.score text)).
  change (ModernNlpApp.confidence text) with (confidence_of (ModernNlpApp.score text)).
  change (NlpProject.score text) with (ModernNlpApp.score text).
  pose proof (score_bounds text) as B.
  set (n := ModernNlpApp.score text) in *.
  assert (D : forall x y : float, x = y -> PrimFloat.eqb x y = PrimFloat.eqb y y)
    by (intros x y ->; reflexivity).
  assert (C : n = 0 \/ n = 1 \/ n = 2 \/ 3 <= n <= 12) by lia.
  destruct C as [-> | [-> | [-> | C]]].
  - repeat split; try reflexivity; try lia; intros H; apply D in H;
      vm_compute in H; discriminate H.
  - repeat split; try reflexivity; try lia; intros H; apply D in H;
      vm_compute in H; discriminate H.
  - repeat split; try reflexivity; try lia; intros H; apply D in H;
      vm_compute in H; discriminate H.
  - rewrite (confidence_of_saturated n C).
    repeat split; try reflexivity; try lia; intros H; apply D in H;
      vm_compute in H; discriminate H.
Qed.

Lemma confidence_range_witness :
  NlpProject.score "I like cats" = 0 /\ NlpProject.confidence "I like cats" = 0%float.
Proof.
  split; [reflexivity|].
  apply (proj2 (proj1 (proj2 (proj2 (confidence_range "I like cats"))))). reflexivity.
Defined.

(** X13. Rendering into two different regions gives the same world in
    either order. *)
Theorem update_results_commute (a b : TextAttr) (x y : string) (w : World) :
  a <> b ->
  (ModernNlpApp.update_results a x ;; ModernNlpApp.update_results b y) w =
  (ModernNlpApp.update_results b y ;; ModernNlpApp.update_results a x) w /\
  (NlpProject.update_results a x ;; NlpProject.update_results b y) w =
  (NlpProject.update_results b y ;; NlpProject.update_results a x) w.
Proof.
  intros N. destruct a, b; try congruence; split; reflexivity.
Qed.

Lemma update_results_commute_witness :
  (ModernNlpApp.update_results EnvResults "A" ;;
   ModernNlpApp.update_results NerResults "B") {| app := app_three; trace := [] |} =
  (ModernNlpApp.update_results NerResults "B" ;;
   ModernNlpApp.update_results EnvResults "A") {| app := app_three; trace := [] |}.
Proof.
  refine (proj1 (update_results_commute EnvResults NerResults "A" "B" _ _)).
  discriminate.
Defined.

(** X14. Pressing the classify button twice in a row leaves the
    application exactly as pressing it once does, in either file: the
    result is recomputed from the unchanged input; only the warning of
    a blank input is shown a second time. *)
Theorem classify_twice (w : World) :
  let once := snd (ModernNlpApp.classify_environment w) in
  let twice :=
    snd ((ModernNlpApp.classify_environment ;; ModernNlpApp.classify_environment) w) in
  app twice = app once /\
  (exists new, trace once = (trace w ++ new)%list /\
               trace twice = (trace w ++ new ++ new)%list) /\
  (NlpProject.classify_environment ;; NlpProject.classify_environment) w =
  (ModernNlpApp.classify_environment ;; ModernNlpApp.classify_environment) w.
Proof.
  cbv zeta.
  assert (P : (NlpProject.classify_environment ;; NlpProject.classify_environment) w =
              (ModernNlpApp.classify_environment ;; ModernNlpApp.classify_environment) w).
  { unfold bind. rewrite project_classify_same.
    destruct (ModernNlpApp.classify_environment w) as [[[]|e] w1]; [|reflexivity].
    apply project_classify_same. }
  assert (R : (ModernNlpApp.classify_environment ;; ModernNlpApp.classify_environment) w =
              let text := Py.strip (Tk.get (env_text_input (app w))) in
              let e := ShowWarning "Warning" "Please enter some text to analyze." in
              if Py.not_str text then (Normal tt, shown e (shown e w))
              else (Normal tt, rendered EnvResults (ModernNlpApp.result text) w)).
  { unfold bind. rewrite modern_classify_run. cbv zeta.
    destruct (Py.not_str (Py.strip (Tk.get (env_text_input (app w))))) eqn:E;
      rewrite modern_classify_run; cbv zeta;
      cbn [app shown rendered set_text env_text_input get_text]; rewrite E; reflexivity. }
  split; [|split; [|exact P]]; rewrite R, modern_classify_run; cbv zeta;
    destruct (Py.not_str (Py.strip (Tk.get (env_text_input (app w))))).
  - reflexivity.
  - reflexivity.
  - eexists. split; [reflexivity|]. cbn. now rewrite <- app_assoc.
  - exists []. cbn. now rewrite app_nil_r.
Qed.

(** ** The layout of the rendered predictions *)

Section Layout.

Lemma enumerate_from {A} (l : list A) (n : nat) :
  Py.enumerate l (Z.of_nat (S n)) =
  combine (map (fun i => Z.of_nat (S i)) (seq n (length l))) l.
Proof.
  revert n; induction l as [|x r IH]; intros n; [reflexivity|].
  cbn [Py.enumerate length seq map combine]. f_equal.
  replace (Z.of_nat (S n) + 1) with (Z.of_nat (S (S n))) by lia.
  apply IH.
Qed.

Lemma enumerate_numbered {A} (l : list A) : Py.enumerate l 1 = numbered l.
Proof. apply (enumerate_from l 0). Qed.

Lemma fold_entity_step (l : list (Z * Entity.t)) (acc : string) :
  fold_left ModernNlpApp.entity_step l acc = acc ++ concat_str (map entity_block l).
Proof.
  revert acc; induction l as [|[i e] r IH]; intros acc.
  - cbn. now rewrite append_nil_r.
  - cbn [fold_left map concat_str fold_right]. rewrite IH.
    unfold ModernNlpApp.entity_step, entity_block. cbn [fst snd].
    now rewrite !append_assoc.
Qed.

Lemma fold_prediction_step (l : list (Z * MaskPrediction.t)) (acc : string) :
  fold_left ModernNlpApp.prediction_step l acc =
  acc ++ concat_str (map prediction_block l).
Proof.
  revert acc; induction l as [|[i e] r IH]; intros acc.
  - cbn. now rewrite append_nil_r.
  - cbn [fold_left map concat_str fold_right]. rewrite IH.
    unfold ModernNlpApp.prediction_step, prediction_block. cbn [fst snd].
    now rewrite !append_assoc.
Qed.

Lemma numbered_length {A} (l : list A) : length (numbered l) = length l.
Proof.
  unfold numbered. rewrite length_combine, length_map, length_seq. lia.
Qed.

Lemma numbered_nth {A} (l : list A) (i : nat) (d : A) :
  (i < length l)%nat ->
  nth i (numbered l) (0, d) = (Z.of_nat i + 1, nth i l d).
Proof.
  intros H. unfold numbered.
  rewrite (combine_nth _ _ i 0 d) by now rewrite length_map, length_seq.
  f_equal.
  rewrite (nth_indep _ 0 (Z.of_nat (S 0))) by now rewrite length_map, length_seq.
  rewrite (map_nth (fun i => Z.of_nat (S i))), seq_nth by exact H. lia.
Qed.

End Layout.

(** X15. The text rendered for the entities is the fixed sentence when
    the pipeline found none, and otherwise the header followed by one
    block per entity, in the pipeline's order, the block of the entity
    at position i (from 0) carrying the number i + 1, its group, its
    word and its score to three decimals. Both files render the same
    text. *)
Theorem entities_result_layout (entities : list Entity.t) :
  ModernNlpApp.entities_result entities =
    match entities with
    | [] => "No named entities found in the text."
    | _ :: _ =>
        "Extracted Entities:" ++ nl ++ Py.repeat_str "=" 50 ++ nl ++ nl ++
        concat_str (map entity_block (numbered entities))
    end /\
  NlpProject.entities_result entities = ModernNlpApp.entities_result entities /\
  length (numbered entities) = length entities /\
  (forall (i : nat) (d : Entity.t),
      (i < length entities)%nat ->
      nth i (numbered entities) (0, d) = (Z.of_nat i + 1, nth i entities d)).
Proof.
  split; [|split; [reflexivity | split; [apply numbered_length | apply numbered_nth]]].
  destruct entities as [|e r]; [reflexivity|].
  unfold ModernNlpApp.entities_result.
  rewrite fold_entity_step, enumerate_numbered. now rewrite !append_assoc.
Qed.

Lemma entities_result_layout_witness :
  let e1 := {| Entity.entity_group := "PER"; Entity.word := "Greta";
               Entity.score := 0.5%float |} in
  let e2 := {| Entity.entity_group := "LOC"; Entity.word := "Davos";
               Entity.score := 0.25%float |} in
  nth 1 (numbered [e1; e2]) (0, e1) = (2, e2).
Proof.
  cbv zeta.
  refine (proj2 (proj2 (proj2 (entities_result_layout _))) 1%nat _ _).
  cbn. lia.
Defined.

(** X16. The text rendered for the mask predictions is the header
    followed by one block per prediction, in the pipeline's order and
    numbered from 1; with no prediction at all it is the header alone
    (mask filling has no sentence for that case, unlike entity
    extraction). Both files render the same text. *)
Theorem predictions_result_layout (predictions : list MaskPrediction.t) :
  ModernNlpApp.predictions_result predictions =
    "Mask Predictions:" ++ nl ++ Py.repeat_str "=" 50 ++ nl ++ nl ++
    concat_str (map prediction_block (numbered predictions)) /\
  NlpProject.predictions_result predictions =
    ModernNlpApp.predictions_result predictions /\
  ModernNlpApp.predictions_result [] =
    "Mask Predictions:" ++ nl ++ Py.repeat_str "=" 50 ++ nl ++ nl /\
  length (numbered predictions) = length predictions /\
  (forall (i : nat) (d : MaskPrediction.t),
      (i < length predictions)%nat ->
      nth i (numbered predictions) (0, d) = (Z.of_nat i + 1, nth i predictions d)).
Proof.
  split; [|split; [reflexivity | split; [reflexivity | split]]].
  - unfold ModernNlpApp.predictions_result.
    rewrite fold_prediction_step, enumerate_numbered. now rewrite !append_assoc.
  - apply numbered_length.
  - apply numbered_nth.
Qed.

Lemma predictions_result_layout_witness :
  let p1 := {| MaskPrediction.sequence := "the sun is warm.";
               MaskPrediction.score := 0.5%float;
               MaskPrediction.token_str := "sun" |} in
  let p2 := {| MaskPrediction.sequence := "the sea is warm.";
               MaskPrediction.score := 0.25%float;
               MaskPrediction.token_str := "sea" |} in
  nth 1 (numbered [p1; p2]) (0, p1) = (2, p2).
Proof.
  cbv zeta.
  refine (proj2 (proj2 (proj2 (proj2 (predictions_result_layout _)))) 1%nat _ _).
  cbn. lia.
Defined.

(** ** A whole session *)

Section Session.

Variable command : Action -> M unit.
Hypothesis command_effect : forall act w, effect act w (snd (command act w)).

Lemma retype_state (s : string) (x : Tk.Text) :
  Tk.state (Tk.insert s (Tk.delete x)) = Tk.state x.
Proof.
  unfold Tk.insert, Tk.delete. destruct (Tk.state x) eqn:E; cbn; now rewrite ?E.
Qed.

Lemma typed_state (a b : TextAttr) (s : string) (app0 : App) :
  Tk.state (get_text b (typed a s app0)) = Tk.state (get_text b app0).
Proof.
  unfold typed.
  destruct a, b; cbn [get_text set_text env_text_input env_results image_prompt_input
                      ner_text_input ner_results mask_text_input mask_results];
    try reflexivity; apply retype_state.
Qed.

Lemma region_dec (act : Action) (a : TextAttr) :
  {region_of act = Some a} + {region_of act <> Some a}.
Proof. destruct act, a; (left; reflexivity) || (right; discriminate). Qed.

Lemma typed_disabled (a : TextAttr) (s : string) (app0 : App) :
  Tk.state (get_text a app0) = Tk.DISABLED -> typed a s app0 = app0.
Proof.
  intros H. unfold typed, Tk.insert, Tk.delete. rewrite H. rewrite H.
  destruct app0, a; reflexivity.
Qed.

Lemma turn_keeps (w : World) (ev : UserEvent) :
  read_only w ->
  (forall a, Tk.state (get_text a (app (turn command w ev))) =
             Tk.state (get_text a (app w))) /\
  ner (app (turn command w ev)) = ner (app w) /\
  mask_filler (app (turn command w ev)) = mask_filler (app w) /\
  image_gen (app (turn command w ev)) = image_gen (app w) /\
  exists new, trace (turn command w ev) = (trace w ++ new)%list /\
              forall attr t, In (PipelineCall attr t) new ->
                             exists act, callable act attr w.
Proof.
  intros RO. destruct ev as [a s | act]; cbn [turn].
  - cbn [app trace]. split; [intros b; apply typed_state|].
    split; [destruct a; reflexivity|].
    split; [destruct a; reflexivity|].
    split; [destruct a; reflexivity|].
    exists []. rewrite app_nil_r. split; [reflexivity | intros ? ? []].
  - pose proof (command_effect act w) as E.
    destruct (effect_handles _ _ _ E) as (Hn & Hm & Hg).
    split.
    { intros a. destruct (region_dec act a) as [R | R].
      - destruct (effect_region_state _ _ _ a E R) as [D | S].
        + rewrite D. symmetry. apply RO. destruct act; inversion R; reflexivity.
        + now rewrite S.
      - now rewrite (effect_frame _ _ _ a E R). }
    repeat split; trivial.
    destruct (effect_trace _ _ _ E) as (new & T & _ & _ & C).
    exists new. split; [exact T|]. intros attr t I. exists act. exact (C attr t I).
Qed.

End Session.

Lemma init_creates (hub : Boot.Hub) :
  exists (app1 app2 : App) (l1 l2 : list Boot.Step),
    Boot.init Boot.modern_init_models hub = (Normal app1, l1) /\
    Boot.init Boot.project_init_models hub = (Normal app2, l2) /\
    exists n m g,
      app1 = created n m g /\ (exists g', app2 = created n m g') /\
      (Boot.first_failure hub <> None -> m = None) /\
      (Boot.first_failure hub = None -> g = Some None).
Proof.
  unfold Boot.init.
  rewrite modern_init_models_run, project_init_models_run.
  do 4 eexists. split; [reflexivity|]. split; [reflexivity|].
  do 3 eexists. split; [reflexivity|]. split; [eexists; reflexivity|].
  destruct hub as [tc np fm ti]. unfold Boot.first_failure. cbn.
  destruct tc as [e|c]; [split; [reflexivity | discriminate]|].
  destruct np as [e|n]; [split; [reflexivity | discriminate]|].
  destruct fm as [e|m]; [split; [reflexivity | discriminate]|].
  split; [congruence | reflexivity].
Qed.

Section Sessions.

Variable command : Action -> M unit.
Hypothesis command_effect : forall act w, effect act w (snd (command act w)).

Lemma callable_loaded (act : Action) (attr : string) (w : World) :
  callable act attr w -> loaded attr w.
Proof. intros [(_ & H)|(_ & H)]; [left | right]; exact H. Qed.

Lemma turn_calls (w : World) (ev : UserEvent) :
  ner (app (turn command w ev)) = ner (app w) /\
  mask_filler (app (turn command w ev)) = mask_filler (app w) /\
  image_gen (app (turn command w ev)) = image_gen (app w) /\
  exists new, trace (turn command w ev) = (trace w ++ new)%list /\
              forall attr t, In (PipelineCall attr t) new -> loaded attr w.
Proof.
  destruct ev as [a s | act]; cbn [turn].
  - cbn [app trace].
    split; [destruct a; reflexivity|].
    split; [destruct a; reflexivity|].
    split; [destruct a; reflexivity|].
    exists []. rewrite app_nil_r. split; [reflexivity | intros ? ? []].
  - pose proof (command_effect act w) as E.
    destruct (effect_handles _ _ _ E) as (Hn & Hm & Hg).
    repeat split; trivial.
    destruct (effect_trace _ _ _ E) as (new & T & _ & _ & C).
    exists new. split; [exact T|]. intros attr t I.
    exact (callable_loaded act attr w (C attr t I)).
Qed.

Lemma mainloop_calls (evs : list UserEvent) (w : World) :
  ner (app (mainloop command evs w)) = ner (app w) /\
  mask_filler (app (mainloop command evs w)) = mask_filler (app w) /\
  image_gen (app (mainloop command evs w)) = image_gen (app w) /\
  exists new, trace (mainloop command evs w) = (trace w ++ new)%list /\
              forall attr t, In (PipelineCall attr t) new -> loaded attr w.
Proof.
  revert w; induction evs as [|ev r IH]; intros w.
  - cbn. repeat split. exists []. rewrite app_nil_r.
    split; [reflexivity | intros ? ? []].
  - change (mainloop command (ev :: r) w) with (mainloop command r (turn command w ev)).
    destruct (turn_calls w ev) as (Hn & Hm & Hg & new1 & T1 & C1).
    destruct (IH (turn command w ev)) as (Hn' & Hm' & Hg' & new2 & T2 & C2).
    split; [congruence|]. split; [congruence|]. split; [congruence|].
    exists (new1 ++ new2)%list. split; [rewrite T2, T1; now rewrite app_assoc|].
    intros attr t I. apply in_app_or in I. destruct I as [I | I].
    + exact (C1 attr t I).
    + destruct (C2 attr t I) as [(-> & L) | (-> & L)]; [left | right];
        (split; [reflexivity | congruence]).
Qed.

Lemma mainloop_states (evs : list UserEvent) (w : World) :
  read_only w ->
  forall a, Tk.state (get_text a (app (mainloop command evs w))) =
            Tk.state (get_text a (app w)).
Proof.
  revert w; induction evs as [|ev r IH]; intros w RO a; [reflexivity|].
  change (mainloop command (ev :: r) w) with (mainloop command r (turn command w ev)).
  destruct (turn_keeps command command_effect w ev RO) as (S & _).
  rewrite IH; [apply S|].
  intros b Hb. rewrite S. now apply RO.
Qed.

End Sessions.

Lemma created_read_only (n : option (Pipeline Entity.t))
    (m : option (Pipeline MaskPrediction.t)) (g : option (option unit))
    (tr : list Event) :
  read_only {| app := created n m g; trace := tr |}.
Proof. intros a H. destruct a; try discriminate H; reflexivity. Qed.

(** X17. Along any sequence of user events served by either file,
    starting from a world whose result regions are disabled, every
    Text widget keeps its state, so the result regions stay disabled
    and what the user types into one changes nothing; the pipeline
    attributes never change and the trace only grows. *)
Theorem session_keeps_regions_read_only (evs : list UserEvent) (w w' : World) :
  read_only w ->
  w' = mainloop modern_command evs w \/ w' = mainloop project_command evs w ->
  (forall a, Tk.state (get_text a (app w')) = Tk.state (get_text a (app w))) /\
  read_only w' /\
  (forall a s, is_region a = true -> typed a s (app w') = app w') /\
  ner (app w') = ner (app w) /\
  mask_filler (app w') = mask_filler (app w) /\
  image_gen (app w') = image_gen (app w) /\
  exists new, trace w' = (trace w ++ new)%list.
Proof.
  intros RO H.
  assert (G : exists command,
             (forall act w0, effect act w0 (snd (command act w0))) /\
             w' = mainloop command evs w).
  { destruct H as [-> | ->]; eexists; (split; [|reflexivity]).
    - apply modern_effect.
    - apply project_effect. }
  destruct G as (command & Hc & ->).
  pose proof (mainloop_states command Hc evs w RO) as S.
  destruct (mainloop_calls command Hc evs w) as (Hn & Hm & Hg & new & T & _).
  assert (RO' : read_only (mainloop command evs w)).
  { intros a Ha. rewrite S. now apply RO. }
  split; [exact S|]. split; [exact RO'|].
  split; [intros a s Ha; apply typed_disabled; now apply RO'|].
  repeat split; trivial. now exists new.
Qed.

Lemma session_keeps_regions_read_only_witness :
  read_only
    (mainloop project_command
       [Presses Classify; Types EnvResults "scribble"; Presses FillMask]
       {| app := app_three; trace := [] |}).
Proof.
  refine (proj1 (proj2 (session_keeps_regions_read_only _
                          {| app := app_three; trace := [] |} _ _ (or_intror eq_refl)))).
  intros a H. destruct a; try discriminate H; reflexivity.
Defined.

(** X18. Along any sequence of user events served by either file,
    every pipeline call added to the trace is a call of [ner] or of
    [mask_filler], and of one that was assigned when the sequence
    began: a pipeline that is not assigned is never called. *)
Theorem session_calls_only_loaded (evs : list UserEvent) (w w' : World)
    (attr t : string) :
  w' = mainloop modern_command evs w \/ w' = mainloop project_command evs w ->
  In (PipelineCall attr t) (trace w') ->
  In (PipelineCall attr t) (trace w) \/ loaded attr w.
Proof.
  intros H I.
  assert (G : exists new, trace w' = (trace w ++ new)%list /\
                          forall attr t, In (PipelineCall attr t) new -> loaded attr w).
  { destruct H as [-> | ->].
    - destruct (mainloop_calls modern_command modern_effect evs w)
        as (_ & _ & _ & G). exact G.
    - destruct (mainloop_calls project_command project_effect evs w)
        as (_ & _ & _ & G). exact G. }
  destruct G as (new & T & C). rewrite T in I.
  apply in_app_or in I. destruct I as [I | I]; [now left | right; exact (C attr t I)].
Qed.

Lemma session_calls_only_loaded_witness :
  In (PipelineCall "ner" "Greta spoke in Davos") [] \/
  loaded "ner" {| app := app_ner_down; trace := [] |}.
Proof.
  refine (session_calls_only_loaded [Presses ExtractEntities]
            {| app := app_ner_down; trace := [] |} _ "ner" "Greta spoke in Davos"
            (or_introl eq_refl) _).
  vm_compute. left. reflexivity.
Defined.

(** X19. [main] of either file always gets to its event loop, and
    after any sequence of user events the result regions are disabled
    and the input widgets editable; when one of the three language
    pipelines failed to load, the whole session never calls the mask
    filler, and when the three loaded, the session of the first file
    has [image_gen] None. *)
Theorem main_session (hub : Boot.Hub) (evs : list UserEvent) :
  exists w1 w2 : World,
    main Boot.modern_init_models modern_command hub evs = Normal w1 /\
    main Boot.project_init_models project_command hub evs = Normal w2 /\
    (forall w, w = w1 \/ w = w2 ->
       (forall a, Tk.state (get_text a (app w)) =
                  if is_region a then Tk.DISABLED else Tk.NORMAL) /\
       (Boot.first_failure hub <> None ->
        forall t, ~ In (PipelineCall "mask_filler" t) (trace w))) /\
    (Boot.first_failure hub = None -> image_gen (app w1) = Some None).
Proof.
  destruct (init_creates hub) as (app1 & app2 & l1 & l2 & I1 & I2 & F).
  unfold main. rewrite I1, I2. do 2 eexists.
  split; [reflexivity|]. split; [reflexivity|].
  assert (C1 : exists n m g, app1 = created n m g /\
                            (Boot.first_failure hub <> None -> m = None) /\
                            (Boot.first_failure hub = None -> g = Some None)).
  { destruct F as (n & m & g & -> & _ & Hm & Hg). now exists n, m, g. }
  assert (C2 : exists n m g, app2 = created n m g /\
                            (Boot.first_failure hub <> None -> m = None)).
  { destruct F as (n & m & g & _ & (g' & ->) & Hm & _). now exists n, m, g'. }
  split.
  - intros w Hw.
    assert (G : exists command n m g,
               (forall act w0, effect act w0 (snd (command act w0))) /\
               w = mainloop command evs {| app := created n m g; trace := [] |} /\
               (Boot.first_failure hub <> None -> m = None)).
    { destruct Hw as [-> | ->].
      - destruct C1 as (n & m & g & -> & Hm & _).
        exists modern_command, n, m, g. split; [apply modern_effect | now split].
      - destruct C2 as (n & m & g & -> & Hm).
        exists project_command, n, m, g. split; [apply project_effect | now split]. }
    destruct G as (command & n & m & g & Hc & -> & Hm).
    split.
    + intros a. rewrite (mainloop_states command Hc evs _ (created_read_only n m g [])).
      destruct a; reflexivity.
    + intros Hf t I. specialize (Hm Hf). subst m.
      destruct (mainloop_calls command Hc evs {| app := created n None g; trace := [] |})
        as (_ & _ & _ & new & T & C).
      rewrite T in I. cbn in I.
      destruct (C _ _ I) as [(E & _) | (_ & L)]; [discriminate E | now apply L].
  - intros Hf. destruct C1 as (n & m & g & -> & _ & Hg).
    destruct (mainloop_calls modern_command modern_effect evs
                {| app := created n m g; trace := [] |}) as (_ & _ & Hg' & _).
    rewrite Hg'. cbn. now apply Hg.
Qed.

Lemma main_session_witness :
  ~ In (PipelineCall "mask_filler" "The [MASK] is warm.")
       (trace (mainloop project_command
                 [Types MaskTextInput "The [MASK] is warm."; Presses FillMask]
                 {| app := created (Some (fun _ => inr [])) None None;
                    trace := [] |})).
Proof.
  destruct (main_session hub_mask_down
              [Types MaskTextInput "The [MASK] is warm."; Presses FillMask])
    as (w1 & w2 & _ & M2 & H & _).
  assert (E : main Boot.project_init_models project_command hub_mask_down
                [Types MaskTextInput "The [MASK] is warm."; Presses FillMask] =
              Normal (mainloop project_command
                        [Types MaskTextInput "The [MASK] is warm."; Presses FillMask]
                        {| app := created (Some (fun _ => inr [])) None None;
                           trace := [] |})) by reflexivity.
  rewrite E in M2. injection M2 as <-.
  apply (proj2 (H _ (or_intror eq_refl))). discriminate.
Defined.

(** ** Whitespace around the input *)

Section Whitespace.

Lemma lstrip_blank (s : string) : blank s = true -> Py.lstrip s = "".
Proof.
  induction s as [|c r IH]; [reflexivity|]. cbn [blank Py.lstrip].
  destruct (Py.isspace c); [exact IH | discriminate].
Qed.

Lemma lstrip_blank_app (a s : string) :
  blank a = true -> Py.lstrip (a ++ s) = Py.lstrip s.
Proof.
  induction a as [|c r IH]; [reflexivity|]. cbn [blank append Py.lstrip].
  destruct (Py.isspace c); [exact IH | discriminate].
Qed.

Lemma rstrip_app_blank (s b : string) :
  blank b = true -> Py.rstrip (s ++ b) = Py.rstrip s.
Proof.
  intros B. induction s as [|c r IH].
  - cbn. now apply rstrip_empty.
  - cbn [append Py.rstrip]. now rewrite IH.
Qed.

Lemma strip_app_blank (s b : string) :
  blank b = true -> Py.strip (s ++ b) = Py.strip s.
Proof.
  intros B. unfold Py.strip. induction s as [|c r IH].
  - cbn [append]. now rewrite (lstrip_blank b B).
  - cbn [append Py.lstrip]. destruct (Py.isspace c); [exact IH|].
    apply (rstrip_app_blank (String c r) b B).
Qed.

Lemma strip_surrounded (a s b : string) :
  blank a = true -> blank b = true -> Py.strip (a ++ s ++ b) = Py.strip s.
Proof.
  intros A B. rewrite <- (strip_app_blank s b B).
  unfold Py.strip. now rewrite lstrip_blank_app.
Qed.

Lemma strip_get_surrounded (a s b : string) (st1 st2 : Tk.State) :
  blank a = true -> blank b = true ->
  Py.strip (Tk.get {| Tk.state := st1; Tk.content := a ++ s ++ b |}) =
  Py.strip (Tk.get {| Tk.state := st2; Tk.content := s |}).
Proof.
  intros A B. unfold Tk.get. cbn [Tk.content].
  rewrite !append_assoc.
  rewrite (strip_surrounded a s (b ++ nl) A) by now rewrite blank_app, B.
  symmetry. now apply strip_app_blank.
Qed.

End Whitespace.

Ltac same_run :=
  cbv zeta; cbn [fst snd app trace shown rendered];
  repeat split; try reflexivity;
  try (intros r Hr; destruct r; try discriminate Hr; reflexivity).

(** X20. Whitespace typed before or after the input changes nothing:
    each of the four commands of either file ends the same way, shows
    the same boxes, makes the same pipeline call and leaves the same
    result regions and image label as on the input without it. *)
Theorem surrounding_whitespace_ignored (act : Action) (app0 : App) (a s b : string) :
  blank a = true -> blank b = true ->
  forall command : Action -> M unit,
    command = modern_command \/ command = project_command ->
    let run c :=
      press (command act)
        (set_text (input_of act) {| Tk.state := Tk.NORMAL; Tk.content := c |} app0) in
    fst (run (a ++ s ++ b)) = fst (run s) /\
    trace (snd (run (a ++ s ++ b))) = trace (snd (run s)) /\
    (forall r, is_region r = true ->
               get_text r (app (snd (run (a ++ s ++ b)))) =
               get_text r (app (snd (run s)))) /\
    image_label (app (snd (run (a ++ s ++ b)))) = image_label (app (snd (run s))).
Proof.
  intros A B command H. cbv zeta. unfold press.
  pose proof (strip_get_surrounded a s b Tk.NORMAL Tk.NORMAL A B) as E.
  destruct H as [-> | ->]; destruct act; cbn [modern_command project_command input_of].
  - rewrite !modern_classify_run. cbv zeta.
    cbn [app set_text env_text_input]. rewrite E.
    destruct (Py.not_str _); same_run.
  - rewrite !modern_generate_image_run. cbv zeta.
    cbn [app set_text image_prompt_input]. rewrite E.
    destruct (Py.not_str _); same_run.
  - rewrite !modern_extract_run. cbv zeta.
    cbn [app set_text ner_text_input ner]. rewrite E.
    destruct (Py.not_str _); [same_run|].
    unfold called. destruct (ner app0) as [f|]; [destruct (f _)|]; same_run.
  - rewrite !modern_fill_mask_run. cbv zeta.
    cbn [app set_text mask_text_input mask_filler]. rewrite E.
    destruct (Py.not_str _ || negb _); [same_run|].
    unfold called. destruct (mask_filler app0) as [f|]; [destruct (f _)|]; same_run.
  - rewrite !project_classify_same, !modern_classify_run. cbv zeta.
    cbn [app set_text env_text_input]. rewrite E.
    destruct (Py.not_str _); same_run.
  - rewrite !project_generate_image_run. cbv zeta.
    cbn [app set_text image_prompt_input image_gen]. rewrite E.
    destruct (Py.not_str _); [same_run|].
    destruct (image_gen app0) as [[u|]|]; same_run.
  - rewrite !project_extract_run. cbv zeta.
    cbn [app set_text ner_text_input ner]. rewrite E.
    destruct (Py.not_str _); [same_run|].
    unfold called. destruct (ner app0) as [f|]; [destruct (f _)|]; same_run.
  - rewrite !project_fill_mask_run. cbv zeta.
    cbn [app set_text mask_text_input mask_filler]. rewrite E.
    destruct (Py.not_str _); [same_run|].
    destruct (negb _); [same_run|].
    unfold called. destruct (mask_filler app0) as [f|]; [destruct (f _)|]; same_run.
Qed.

Lemma surrounding_whitespace_ignored_witness :
  get_text EnvResults
    (app (snd (press (modern_command Classify)
                 (set_text (input_of Classify)
                    {| Tk.state := Tk.NORMAL;
                       Tk.content := "  " ++ "Recycle!" ++ " " |} app_three)))) =
  get_text EnvResults
    (app (snd (press (modern_command Classify)
                 (set_text (input_of Classify)
                    {| Tk.state := Tk.NORMAL; Tk.content := "Recycle!" |} app_three)))).
Proof.
  refine (proj1 (proj2 (proj2 (surrounding_whitespace_ignored Classify app_three
                                 "  " "Recycle!" " " eq_refl eq_refl
                                 modern_command (or_introl eq_refl)))) EnvResults eq_refl).
Defined.
